(** * Streaming Avatar FastAPI backend: a shallow embedding of [main.py]

    The module [main.py] is a FastAPI application with one startup hook
    ([startup_event]) and four handlers ([get_access_token],
    [create_knowledge_base], [get_default_config], [root]).  Its only
    collaborators are the remote HeyGen REST API, reached through
    [httpx.AsyncClient], the process environment, standard output and one
    module-level global, [default_kb_id].

    The embedding keeps this shape:
    - Python values decoded from JSON are the inductive type [pyval];
    - Python exceptions are the inductive type [exn];
    - a handler is a computation in the monad [M], which threads a [world]
      (state of the remote service, the outbound requests issued so far, the
      lines printed, the global [default_kb_id]) and may raise an [exn];
    - the remote service is an arbitrary state machine [remote]. *)

From Stdlib Require Import List String Ascii ZArith Bool Lia SpecFloat.
Import ListNotations.
Local Open Scope string_scope.
Local Open Scope Z_scope.
Set Warnings "-register-all".

(** ** Python values *)

(** What [response.json()] can return, and what the handlers build: [None],
    [bool], [int], [float], [str], [list] and [dict] with [str] keys.  A
    [float] is an IEEE 754 binary64 datum.  A [dict] is kept as an association
    list in insertion order; [dict_lookup] reads the first binding of a key. *)
Inductive pyval : Type :=
| VNone
| VBool (b : bool)
| VInt (z : Z)
| VFloat (f : spec_float)
| VStr (s : string)
| VList (l : list pyval)
| VDict (m : list (string * pyval)).

(** Python's truth value testing, as used by [or], [not] and [if]. *)
Definition truthy (v : pyval) : bool :=
  match v with
  | VNone => false
  | VBool b => b
  | VInt z => negb (z =? 0)
  | VFloat (S754_zero _) => false
  | VFloat _ => true
  | VStr s => negb (s =? "")%string
  | VList l => match l with [] => false | _ => true end
  | VDict m => match m with [] => false | _ => true end
  end.

(** Whether [json.dumps(v, allow_nan=False)] accepts the value: it refuses
    [nan], [inf] and [-inf], wherever they sit in the value. *)
Fixpoint renderable (v : pyval) : bool :=
  match v with
  | VFloat S754_nan => false
  | VFloat (S754_infinity _) => false
  | VList l => forallb renderable l
  | VDict m => forallb (fun kv => renderable (snd kv)) m
  | _ => true
  end.

Fixpoint dict_lookup (m : list (string * pyval)) (k : string) : option pyval :=
  match m with
  | [] => None
  | (k', v) :: m' => if (k' =? k)%string then Some v else dict_lookup m' k
  end.

(** [d[k] = v] on a dict: overwrite in place, or append a new key. *)
Fixpoint dict_set (m : list (string * pyval)) (k : string) (v : pyval)
  : list (string * pyval) :=
  match m with
  | [] => [(k, v)]
  | (k', v') :: m' =>
      if (k' =? k)%string then (k, v) :: m' else (k', v') :: dict_set m' k v
  end.

(** [v == s] for a [str] [s]: no other decoded JSON type compares equal to a
    string. *)
Definition py_eq_str (v : pyval) (s : string) : bool :=
  match v with
  | VStr t => (t =? s)%string
  | _ => false
  end.

(** ** HTTP messages and exceptions *)

Inductive method : Type := GET | POST.

Record request : Type := mkRequest {
  meth : method;
  url : string;
  headers : list (string * string);
  json_payload : option pyval
}.

(** An [httpx.Response]: its status code, and its body when the body decodes
    as JSON ([None] when [response.json()] raises). *)
Record response : Type := mkResponse {
  status_code : Z;
  body : option pyval
}.

(** The exceptions the module can see.  All of them derive from [Exception].
    [detail] is the [detail] argument of [HTTPException]: a string literal
    of the source, or [str(e)] of a caught exception.  [ValueError] is what
    [json.dumps(..., allow_nan=False)] raises when the framework renders a
    returned value that holds a non-finite float; it is raised after the
    handler has returned, outside its [try]. *)
Inductive exn : Type :=
| RequestError (msg : string)
| HTTPStatusError (resp : response)
| JSONDecodeError
| AttributeError (obj : pyval) (attr : string)
| TypeError (obj : pyval)
| KeyError (key : string)
| ValueError (content : pyval)
| HTTPException (status : Z) (d : detail)
with detail : Type :=
| Literal (s : string)
| StrOf (e : exn).

Definition result (A : Type) : Type := (exn + A)%type.

(** ** Pure Python operations that may raise *)

(** [obj.get(key, default)]: only a dict has [get]. *)
Definition py_get (obj : pyval) (key : string) (default : pyval) : result pyval :=
  match obj with
  | VDict m =>
      match dict_lookup m key with
      | Some v => inr v
      | None => inr default
      end
  | _ => inl (AttributeError obj "get")
  end.

(** [obj[key]] with a [str] key: [KeyError] on a dict without the key,
    [TypeError] on every other decoded JSON type. *)
Definition py_getitem (obj : pyval) (key : string) : result pyval :=
  match obj with
  | VDict m =>
      match dict_lookup m key with
      | Some v => inr v
      | None => inl (KeyError key)
      end
  | _ => inl (TypeError obj)
  end.

Fixpoint string_prefix (n : nat) (s : string) : string :=
  match n, s with
  | S n', String c s' => String c (string_prefix n' s')
  | _, _ => EmptyString
  end.

(** [obj[:50]]: defined on [str] and [list]; every other decoded JSON type
    raises (a dict raises [TypeError] or, from Python 3.12 on, [KeyError]:
    both are handled by the same [except Exception] clause). *)
Definition py_slice50 (obj : pyval) : result pyval :=
  match obj with
  | VStr s => inr (VStr (string_prefix 50 s))
  | VList l => inr (VList (firstn 50 l))
  | _ => inl (TypeError obj)
  end.

Fixpoint chars (s : string) : list pyval :=
  match s with
  | EmptyString => []
  | String c s' => VStr (String c EmptyString) :: chars s'
  end.

(** The items a [for] loop visits: the elements of a list, the keys of a
    dict, the characters of a string; the other types are not iterable. *)
Definition py_iter (obj : pyval) : result (list pyval) :=
  match obj with
  | VList l => inr l
  | VDict m => inr (map (fun kv => VStr (fst kv)) m)
  | VStr s => inr (chars s)
  | _ => inl (TypeError obj)
  end.

(** [httpx.Response.is_success]: the status code is 2xx. *)
Definition is_success (r : response) : bool :=
  (200 <=? status_code r) && (status_code r <=? 299).

(** ** Monads *)

Class Monad (m : Type -> Type) : Type := {
  ret : forall {A : Type}, A -> m A;
  bind : forall {A B : Type}, m A -> (A -> m B) -> m B
}.

Declare Scope monad_scope.
Delimit Scope monad_scope with monad.
Notation "x <- c1 ;; c2" := (bind c1 (fun x => c2))
  (at level 61, c1 at next level, right associativity) : monad_scope.
Notation "c1 ;; c2" := (bind c1 (fun _ => c2))
  (at level 61, right associativity) : monad_scope.
Local Open Scope monad_scope.

#[export] Instance Monad_result : Monad result := {
  ret := fun A (a : A) => inr a;
  bind := fun A B (c : result A) (k : A -> result B) =>
            match c with
            | inl e => inl e
            | inr a => k a
            end
}.

(** Line 55 and line 139 of [main.py]:
    [data.get("data", {}).get("knowledge_base_id") or data.get("data", {}).get("id")]. *)
Definition extract_id (data : pyval) : result pyval :=
  d <- py_get data "data" (VDict []) ;;
  a <- py_get d "knowledge_base_id" VNone ;;
  if truthy a then ret a
  else
    d' <- py_get data "data" (VDict []) ;;
    py_get d' "id" VNone.

(** [list_data.get("data", {}).get("list", [])] (lines 68 and 152). *)
Definition extract_list (list_data : pyval) : result pyval :=
  d <- py_get list_data "data" (VDict []) ;;
  py_get d "list" (VList []).

(** ** Resource descriptors *)

(** The pydantic model [KnowledgeBaseRequest]: three [str] fields. *)
Record KnowledgeBaseRequest : Type := mkKB {
  name : string;
  opening : string;
  prompt : string
}.

(** The condition of the [if] inside the scan loops (lines 71-73 and
    156-158); [and] evaluates left to right and stops at the first false
    operand, so [kb.get] is called one to three times. *)
Definition kb_matches (rq : KnowledgeBaseRequest) (kb : pyval) : result bool :=
  n <- py_get kb "name" VNone ;;
  if py_eq_str n (name rq) then
    o <- py_get kb "opening" VNone ;;
    if py_eq_str o (opening rq) then
      p <- py_get kb "prompt" VNone ;;
      ret (py_eq_str p (prompt rq))
    else ret false
  else ret false.

(** The body of the [for kb in kb_list] loops (lines 70-75 and 155-160) over
    the items of [kb_list]: [Some v] when the loop left through [break] after
    assigning [v = kb.get("id")], [None] when it ran to the end without an
    assignment. *)
Fixpoint scan (rq : KnowledgeBaseRequest) (items : list pyval)
  : result (option pyval) :=
  match items with
  | [] => ret None
  | kb :: rest =>
      b <- kb_matches rq kb ;;
      if b then
        v <- py_get kb "id" VNone ;;
        ret (Some v)
      else scan rq rest
  end.

(** ** Configuration, log and the remote service *)

(** Lines 23-24: [HEYGEN_API_KEY = os.getenv("HEYGEN_API_KEY")] is [None]
    when the variable is unset; [HEYGEN_BASE_URL] always has a value. *)
Record config : Type := mkConfig {
  HEYGEN_API_KEY : option string;
  HEYGEN_BASE_URL : string
}.

(** [not HEYGEN_API_KEY]: the key is [None] or the empty string. *)
Definition key_missing (cfg : config) : bool :=
  match HEYGEN_API_KEY cfg with
  | None => true
  | Some k => (k =? "")%string
  end.

Definition api_key (cfg : config) : string :=
  match HEYGEN_API_KEY cfg with
  | None => ""
  | Some k => k
  end.

(** The calls to [print], one constructor per call site, with the values
    interpolated into the f-string. *)
Inductive log_line : Type :=
| LogKeyMissing                    (* line 34 *)
| LogCreating                      (* line 39 *)
| LogCreatedOrFound (id : pyval)   (* line 78 *)
| LogNotFound                      (* line 80 *)
| LogStartupError (e : exn)        (* line 83 *)
| LogToken (shown : pyval)         (* line 107 *)
| LogHTTPError (resp : response)   (* line 110 *)
| LogException (e : exn).          (* line 113 *)

(** What awaiting [client.post] / [client.get] gives: a transport failure
    ([httpx.RequestError], with its message) or a response. *)
Definition outcome : Type := (string + response)%type.

Definition DEFAULT_KB : KnowledgeBaseRequest :=
  {| name := "Office Query Solver";
     opening := "starts with a greeting";
     prompt := "You are an IT industry office query solver. Help users with workplace-related queries in the IT industry, such as software development, project management, team collaboration, and technical challenges." |}.

Definition kb_json (rq : KnowledgeBaseRequest) : pyval :=
  VDict [("name", VStr (name rq)); ("opening", VStr (opening rq));
         ("prompt", VStr (prompt rq))].

Definition create_request (cfg : config) (rq : KnowledgeBaseRequest) : request :=
  {| meth := POST;
     url := HEYGEN_BASE_URL cfg ++ "/v1/streaming/knowledge_base/create";
     headers := [("accept", "application/json");
                 ("content-type", "application/json");
                 ("x-api-key", api_key cfg)];
     json_payload := Some (kb_json rq) |}.

Definition list_request (cfg : config) : request :=
  {| meth := GET;
     url := HEYGEN_BASE_URL cfg ++ "/v1/streaming/knowledge_base/list";
     headers := [("accept", "application/json"); ("x-api-key", api_key cfg)];
     json_payload := None |}.

Definition token_request (cfg : config) : request :=
  {| meth := POST;
     url := HEYGEN_BASE_URL cfg ++ "/v1/streaming.create_token";
     headers := [("x-api-key", api_key cfg)];
     json_payload := None |}.

(** The static part of the dict built by [get_default_config] (lines
    178-192); [1.5] is the binary64 number 6755399441055744 * 2^-52. *)
Definition STATIC_CONFIG : list (string * pyval) :=
  [("quality", VStr "Low");
   ("avatar_name", VStr "Elenora_IT_Sitting_public");
   ("voice", VDict [("rate", VFloat (S754_finite false 6755399441055744 (-52)));
                    ("emotion", VStr "EXCITED");
                    ("model", VStr "eleven_flash_v2_5")]);
   ("language", VStr "en");
   ("voice_chat_transport", VStr "WEBSOCKET");
   ("stt_settings", VDict [("provider", VStr "DEEPGRAM")]);
   ("opening_message", VStr "Hello! I am ready to chat.")].

(** The requests FastAPI routes to a handler; the body of
    [POST /create-knowledge-base] has already been validated by pydantic. *)
Inductive http_request : Type :=
| PostGetAccessToken
| PostCreateKnowledgeBase (rq : KnowledgeBaseRequest)
| GetDefaultConfig
| GetRoot.

(** What the client receives.  FastAPI renders a returned value with
    [JSONResponse], that is [json.dumps(..., allow_nan=False)], into a 200
    response; when the value cannot be rendered the [ValueError] is raised
    outside the handler and surfaces as a bare 500.  An [HTTPException]
    becomes a response with its status code and detail; any other exception
    would surface as a bare 500 too. *)
Inductive http_response : Type :=
| Ok200 (content : pyval)
| Error (status : Z) (d : detail)
| Unhandled (e : exn).

Definition respond (r : result pyval) : http_response :=
  match r with
  | inr v => if renderable v then Ok200 v else Unhandled (ValueError v)
  | inl (HTTPException status d) => Error status d
  | inl e => Unhandled e
  end.

Definition response_status (r : http_response) : Z :=
  match r with
  | Ok200 _ => 200
  | Error status _ => status
  | Unhandled _ => 500
  end.

(** ** The scan, as the specification words it *)

(** "The first entry whose (name, opening, prompt) triple structurally
    equals the descriptor", read on decoded JSON: an entry is an object, a
    missing field reads as [None], and the identifier of an entry is its
    [id] field. *)
Definition is_dict (v : pyval) : bool :=
  match v with
  | VDict _ => true
  | _ => false
  end.

Definition field (kb : pyval) (k : string) : pyval :=
  match kb with
  | VDict m =>
      match dict_lookup m k with
      | Some v => v
      | None => VNone
      end
  | _ => VNone
  end.

Definition entry_matches (rq : KnowledgeBaseRequest) (kb : pyval) : bool :=
  py_eq_str (field kb "name") (name rq)
  && py_eq_str (field kb "opening") (opening rq)
  && py_eq_str (field kb "prompt") (prompt rq).

Definition entry_id (kb : pyval) : pyval := field kb "id".

(** The values that are neither subscriptable nor iterable. *)
Definition is_scalar (v : pyval) : bool :=
  match v with
  | VNone | VBool _ | VInt _ | VFloat _ => true
  | _ => false
  end.

(** ** Remote services to run the handlers against *)

Definition field_string (kb : pyval) (k : string) : string :=
  match field kb k with
  | VStr s => s
  | _ => ""
  end.

Fixpoint kb_name (n : nat) : string :=
  match n with
  | O => "kb"
  | S n' => kb_name n' ++ "'"
  end.

(** A scripted service: it answers the calls with the outcomes of a script,
    in order, whatever the request, and refuses connections afterwards. *)
Definition scripted (script : list outcome) (rq : request)
  : outcome * list outcome :=
  match script with
  | [] => (inl "connection refused", [])
  | o :: rest => (o, rest)
  end.

Definition ok_json (v : pyval) : outcome :=
  inr {| status_code := 200; body := Some v |}.

Definition same_triple (payload entry : pyval) : bool :=
  forallb (fun k =>
             match field payload k, field entry k with
             | VStr a, VStr b => (a =? b)%string
             | _, _ => false
             end)
          ["name"; "opening"; "prompt"].

(** A find-or-create store: a [POST] adds the posted descriptor under a
    fresh identifier unless an entry with the same triple is already there,
    and answers without an identifier; a [GET] lists the entries. *)
Definition store (entries : list pyval) (rq : request)
  : outcome * list pyval :=
  match meth rq, json_payload rq with
  | POST, Some p =>
      (ok_json (VDict [("data", VDict [])]),
       if existsb (same_triple p) entries then entries
       else (entries ++
             [VDict [("id", VStr ("kb_" ++ field_string p "name"));
                     ("name", field p "name"); ("opening", field p "opening");
                     ("prompt", field p "prompt")]])%list)
  | POST, None => (inr {| status_code := 400; body := None |}, entries)
  | GET, _ =>
      (ok_json (VDict [("data", VDict [("list", VList entries)])]), entries)
  end.


(** A service that creates a new resource on every [POST] and returns its
    identifier, numbered by the resources created so far. *)
Definition fresh (n : nat) (rq : request) : outcome * nat :=
  match meth rq with
  | POST =>
      (ok_json (VDict [("data", VDict [("id", VStr (kb_name n))])]), S n)
  | GET => (ok_json (VDict [("data", VDict [("list", VList [])])]), n)
  end.

(** ** Sample configurations and remote answers *)

Definition WITH_KEY : config :=
  {| HEYGEN_API_KEY := Some "sk_test";
     HEYGEN_BASE_URL := "https://api.heygen.com" |}.

Definition WITHOUT_KEY : config :=
  {| HEYGEN_API_KEY := None; HEYGEN_BASE_URL := "https://api.heygen.com" |}.

(** The create response [{"data": {"id": "kb_123"}}]. *)
Definition CREATED_KB_123 : outcome :=
  ok_json (VDict [("data", VDict [("id", VStr "kb_123")])]).

(** The create response [{"data": {}}]. *)
Definition CREATED_NO_ID : outcome := ok_json (VDict [("data", VDict [])]).

(** A list entry for the default descriptor with the given extra fields. *)
Definition default_entry (extra : list (string * pyval)) : pyval :=
  VDict (extra ++
         [("name", VStr (name DEFAULT_KB));
          ("opening", VStr (opening DEFAULT_KB));
          ("prompt", VStr (prompt DEFAULT_KB))]).

Definition listing (entries : list pyval) : outcome :=
  ok_json (VDict [("data", VDict [("list", VList entries)])]).

(** A list whose only matching entry carries [id: "kb_999"], after an entry
    for another descriptor. *)
Definition LIST_KB_999 : list pyval :=
  [VDict [("id", VStr "kb_1"); ("name", VStr "Other"); ("opening", VStr "hi");
          ("prompt", VStr "p")];
   default_entry [("id", VStr "kb_999")]].

(** A list whose first matching entry has a [knowledge_base_id] but no
    [id], followed by a matching entry with [id: "kb_2"]. *)
Definition LIST_FIRST_WITHOUT_ID : list pyval :=
  [default_entry [("knowledge_base_id", VStr "kb_1")];
   default_entry [("id", VStr "kb_2")]].

Definition UNAUTHORIZED : outcome := inr {| status_code := 401; body := None |}.

(** The token response [{"data": {"token": "tok"}}]. *)
Definition TOKEN_OK : outcome :=
  ok_json (VDict [("data", VDict [("token", VStr "tok")])]).

(** The create responses [{"data": {"id": ""}}] and [{"data": null}]. *)
Definition CREATED_EMPTY_ID : outcome :=
  ok_json (VDict [("data", VDict [("id", VStr "")])]).

Definition CREATED_NULL_DATA : outcome := ok_json (VDict [("data", VNone)]).

(** The create response [{"data": {"id": 7}}]. *)
Definition CREATED_KB_7 : outcome :=
  ok_json (VDict [("data", VDict [("id", VInt 7)])]).

(** [LIST_KB_999] followed by a string where an object is expected. *)
Definition LIST_KB_999_THEN_JUNK : list pyval :=
  (LIST_KB_999 ++ [VStr "oops"])%list.

(** The create response [{"data": {"id": NaN}}], which [json.loads]
    accepts. *)
Definition CREATED_KB_NAN : outcome :=
  ok_json (VDict [("data", VDict [("id", VFloat S754_nan)])]).

(** A list that starts with a string where an object is expected. *)
Definition LIST_MALFORMED : list pyval :=
  [VStr "oops"; default_entry [("id", VStr "kb_2")]].

(** ** The embedding of [main.py] *)

Section Backend.

(** The remote service: a state machine that answers each outbound request.
    Nothing is assumed about it. *)
Variable R : Type.
Variable remote : R -> request -> outcome * R.

(** The environment read at import time. *)
Variable cfg : config.

Record world : Type := mkWorld {
  remote_state : R;
  outbound : list request;
  stdout : list log_line;
  default_kb_id : pyval
}.

(** The process right after the module is imported (line 27:
    [default_kb_id = None]). *)
Definition initial_world (r : R) : world :=
  {| remote_state := r; outbound := []; stdout := []; default_kb_id := VNone |}.

Definition M (A : Type) : Type := world -> result A * world.

#[export] Instance Monad_M : Monad M := {
  ret := fun A (a : A) (w : world) => (inr a, w);
  bind := fun A B (c : M A) (k : A -> M B) (w : world) =>
            match c w with
            | (inl e, w') => (inl e, w')
            | (inr a, w') => k a w'
            end
}.

Definition raise {A : Type} (e : exn) : M A := fun w => (inl e, w).

Definition lift {A : Type} (r : result A) : M A := fun w => (r, w).

(** [try: c  except Exception as e: h e]. *)
Definition try_except {A : Type} (c : M A) (h : exn -> M A) : M A :=
  fun w =>
    match c w with
    | (inl e, w') => h e w'
    | (inr a, w') => (inr a, w')
    end.

(** The three ways the world changes. *)
Definition logged (w : world) (l : log_line) : world :=
  {| remote_state := remote_state w; outbound := outbound w;
     stdout := stdout w ++ [l]; default_kb_id := default_kb_id w |}.

Definition cached (w : world) (v : pyval) : world :=
  {| remote_state := remote_state w; outbound := outbound w;
     stdout := stdout w; default_kb_id := v |}.

Definition sent (w : world) (rq : request) (r' : R) : world :=
  {| remote_state := r'; outbound := outbound w ++ [rq];
     stdout := stdout w; default_kb_id := default_kb_id w |}.

Definition print (l : log_line) : M unit := fun w => (inr tt, logged w l).

Definition get_default_kb_id : M pyval := fun w => (inr (default_kb_id w), w).

Definition set_default_kb_id (v : pyval) : M unit := fun w => (inr tt, cached w v).

(** [await client.post(...)] / [await client.get(...)]: the request goes out
    (it is recorded in [outbound]), the remote service moves on, and the
    call returns a response or raises a transport error. *)
Definition send (rq : request) : M response :=
  fun w =>
    let '(o, r') := remote (remote_state w) rq in
    match o with
    | inl msg => (inl (RequestError msg), sent w rq r')
    | inr resp => (inr resp, sent w rq r')
    end.

(** [response.raise_for_status()]. *)
Definition raise_for_status (resp : response) : M unit :=
  if is_success resp then ret tt else raise (HTTPStatusError resp).

(** [response.json()]. *)
Definition json (resp : response) : M pyval :=
  match body resp with
  | Some v => ret v
  | None => raise JSONDecodeError
  end.

(** Lines 59-75 and 143-160: fetch the list and run the scan loop. *)
Definition list_and_scan (rq : KnowledgeBaseRequest) : M (option pyval) :=
  list_response <- send (list_request cfg) ;;
  raise_for_status list_response ;;
  list_data <- json list_response ;;
  kb_list <- lift (extract_list list_data) ;;
  items <- lift (py_iter kb_list) ;;
  lift (scan rq items).

(** Lines 39-80: the body of the [try] in [startup_event]. *)
Definition startup_try : M unit :=
  print LogCreating ;;
  resp <- send (create_request cfg DEFAULT_KB) ;;
  raise_for_status resp ;;
  data <- json resp ;;
  id <- lift (extract_id data) ;;
  set_default_kb_id id ;;
  (if negb (truthy id) then
     found <- list_and_scan DEFAULT_KB ;;
     match found with
     | Some v => set_default_kb_id v
     | None => ret tt
     end
   else ret tt) ;;
  cur <- get_default_kb_id ;;
  if truthy cur then print (LogCreatedOrFound cur) else print LogNotFound.

(** Lines 29-84. *)
Definition startup_event : M unit :=
  if key_missing cfg then print LogKeyMissing
  else
    try_except startup_try
      (fun e => print (LogStartupError e) ;; set_default_kb_id VNone).

(** Lines 100-108: the body of the [try] in [get_access_token]. *)
Definition get_access_token_try : M pyval :=
  resp <- send (token_request cfg) ;;
  raise_for_status resp ;;
  data <- json resp ;;
  inner <- lift (py_getitem data "data") ;;
  token <- lift (py_getitem inner "token") ;;
  shown <- lift (py_slice50 token) ;;
  print (LogToken shown) ;;
  ret (VDict [("token", token)]).

(** Lines 93-114. *)
Definition get_access_token : M pyval :=
  if key_missing cfg then
    raise (HTTPException 500 (Literal "API key is missing from environment"))
  else
    try_except get_access_token_try
      (fun e =>
         match e with
         | HTTPStatusError resp =>
             print (LogHTTPError resp) ;;
             raise (HTTPException (status_code resp)
                      (Literal "Failed to retrieve access token"))
         | _ =>
             print (LogException e) ;;
             raise (HTTPException 500 (StrOf e))
         end).

(** Lines 123-165: the body of the [try] in [create_knowledge_base]. *)
Definition create_knowledge_base_try (rq : KnowledgeBaseRequest) : M pyval :=
  resp <- send (create_request cfg rq) ;;
  raise_for_status resp ;;
  data <- json resp ;;
  kb_id <- lift (extract_id data) ;;
  kb_id <- (if negb (truthy kb_id) then
              found <- list_and_scan rq ;;
              match found with
              | Some v => ret v
              | None => ret kb_id
              end
            else ret kb_id) ;;
  if negb (truthy kb_id) then
    raise (HTTPException 500 (Literal "Failed to retrieve knowledge base ID"))
  else ret (VDict [("knowledge_base_id", kb_id)]).

(** Lines 116-169. *)
Definition create_knowledge_base (rq : KnowledgeBaseRequest) : M pyval :=
  if key_missing cfg then
    raise (HTTPException 500 (Literal "API key is missing from environment"))
  else
    try_except (create_knowledge_base_try rq)
      (fun e =>
         match e with
         | HTTPStatusError resp =>
             raise (HTTPException (status_code resp)
                      (Literal "Failed to create or retrieve knowledge base"))
         | _ => raise (HTTPException 500 (StrOf e))
         end).

(** Lines 173-199. *)
Definition get_default_config : M pyval :=
  cur <- get_default_kb_id ;;
  let config := STATIC_CONFIG in
  let config :=
    if truthy cur then dict_set config "knowledge_id" cur
    else dict_set config "knowledge_id" VNone in
  ret (VDict config).

(** Lines 203-205. *)
Definition root : M pyval :=
  ret (VDict [("message", VStr "Streaming Avatar FastAPI Backend")]).

(** ** The process *)

Definition handle (rq : http_request) : M pyval :=
  match rq with
  | PostGetAccessToken => get_access_token
  | PostCreateKnowledgeBase kb => create_knowledge_base kb
  | GetDefaultConfig => get_default_config
  | GetRoot => root
  end.

(** Requests are served one after the other on the state the previous one
    left. *)
Fixpoint serve (rqs : list http_request) (w : world)
  : list http_response * world :=
  match rqs with
  | [] => ([], w)
  | rq :: rest =>
      let '(r, w1) := handle rq w in
      let '(rs, w2) := serve rest w1 in
      (respond r :: rs, w2)
  end.

(** The life of the process: FastAPI runs the startup hook to completion
    once, then serves. *)
Definition run (r0 : R) (rqs : list http_request) : list http_response * world :=
  serve rqs (snd (startup_event (initial_world r0))).

(** ** Notions used in the statements *)

(** What [send; raise_for_status; json] makes of an outcome: the decoded
    body of a 2xx response, or the exception one of the three raises. *)
Definition fetched (o : outcome) : result pyval :=
  match o with
  | inl msg => inl (RequestError msg)
  | inr resp =>
      if is_success resp then
        match body resp with
        | Some v => inr v
        | None => inl JSONDecodeError
        end
      else inl (HTTPStatusError resp)
  end.

(** The pure part of [list_and_scan]: from the decoded list body to the
    outcome of the loop. *)
Definition scanned (rq : KnowledgeBaseRequest) (list_data : pyval)
  : result (option pyval) :=
  kb_list <- extract_list list_data ;;
  items <- py_iter kb_list ;;
  scan rq items.

(** The exception of line 163, and the one of lines 96 and 119. *)
Definition NO_ID : exn :=
  HTTPException 500 (Literal "Failed to retrieve knowledge base ID").

Definition KEY_MISSING : exn :=
  HTTPException 500 (Literal "API key is missing from environment").

(** Steps 2 to 4 of provisioning as both [startup_try] and
    [create_knowledge_base_try] run them ([startup_try_run],
    [create_try_run]): [o1] is the outcome of the create call, [o2] the
    outcome of the list call, which is only issued when the create response
    yields no truthy identifier. *)
Definition find_or_create (rq : KnowledgeBaseRequest) (o1 o2 : outcome)
  : result pyval :=
  data <- fetched o1 ;;
  kb0 <- extract_id data ;;
  if truthy kb0 then ret kb0
  else
    list_data <- fetched o2 ;;
    found <- scanned rq list_data ;;
    ret (match found with Some v => v | None => kb0 end).

(** The outcomes the remote service gives, from the state [w], to the
    create call and to the list call issued right after it. *)
Definition create_outcome (w : world) (rq : KnowledgeBaseRequest) : outcome :=
  fst (remote (remote_state w) (create_request cfg rq)).

Definition list_outcome (w : world) (rq : KnowledgeBaseRequest) : outcome :=
  fst (remote (snd (remote (remote_state w) (create_request cfg rq)))
              (list_request cfg)).

(** The situation of the fallback: the create call returned a 2xx response
    whose decoded body yields no truthy identifier ... *)
Definition create_without_id (w : world) (rq : KnowledgeBaseRequest) : Prop :=
  exists data kb0 : pyval,
    fetched (create_outcome w rq) = inr data /\
    extract_id data = inr kb0 /\
    truthy kb0 = false.

(** ... and the list call that follows returned a 2xx response whose decoded
    body holds the list [items] under [data.list]. *)
Definition listed (w : world) (rq : KnowledgeBaseRequest) (items : list pyval)
  : Prop :=
  exists list_data : pyval,
    fetched (list_outcome w rq) = inr list_data /\
    extract_list list_data = inr (VList items).

(** The outcome the remote service gives, from the state [w], to the token
    call. *)
Definition token_outcome (w : world) : outcome :=
  fst (remote (remote_state w) (token_request cfg)).

(** The two assumptions on the remote service: listing does not change its
    state, and creating the same descriptor a second time changes nothing
    and is answered as the first time. *)
Definition listing_consistent : Prop :=
  forall r : R, snd (remote r (list_request cfg)) = r.

Definition create_idempotent (rq : KnowledgeBaseRequest) : Prop :=
  forall r : R,
    remote (snd (remote r (create_request cfg rq))) (create_request cfg rq) =
    remote r (create_request cfg rq).

(** What [create_knowledge_base] returns or raises, from the result of
    find-or-create: line 162 to line 169. *)
Definition create_answer (r : result pyval) : result pyval :=
  match r with
  | inl (HTTPStatusError resp) =>
      inl (HTTPException (status_code resp)
             (Literal "Failed to create or retrieve knowledge base"))
  | inl e => inl (HTTPException 500 (StrOf e))
  | inr kb_id =>
      if truthy kb_id then inr (VDict [("knowledge_base_id", kb_id)])
      else inl (HTTPException 500 (StrOf NO_ID))
  end.

(** C1 as the specification states it: a matching entry always leads to a
    response with that entry's identifier, and only the absence of a match
    leads to status 500. *)
Definition fallback_as_stated
           (w : world) (rq : KnowledgeBaseRequest) (items : list pyval) : Prop :=
  match find (entry_matches rq) items with
  | Some kb =>
      respond (fst (create_knowledge_base rq w)) =
      Ok200 (VDict [("knowledge_base_id", entry_id kb)])
  | None => response_status (respond (fst (create_knowledge_base rq w))) = 500
  end.

(** Whether [create_knowledge_base_try] and [startup_try] go on to the
    list call: the create call gave a 2xx response with a decodable body
    from which line 139 (line 55) extracts a falsy value. *)
Definition needs_list (w : world) (rq : KnowledgeBaseRequest) : bool :=
  match (data <- fetched (create_outcome w rq) ;; extract_id data) with
  | inl _ => false
  | inr kb0 => negb (truthy kb0)
  end.

(** The remote calls a handler issues from the state [w]. *)
Definition calls_of (w : world) (rq : http_request) : list request :=
  match rq with
  | PostGetAccessToken =>
      if key_missing cfg then [] else [token_request cfg]
  | PostCreateKnowledgeBase kb =>
      if key_missing cfg then []
      else if needs_list w kb then [create_request cfg kb; list_request cfg]
      else [create_request cfg kb]
  | GetDefaultConfig => []
  | GetRoot => []
  end.

(** What a process without credential answers to each request. *)
Definition answer_without_key (rq : http_request) : http_response :=
  match rq with
  | PostGetAccessToken =>
      Error 500 (Literal "API key is missing from environment")
  | PostCreateKnowledgeBase _ =>
      Error 500 (Literal "API key is missing from environment")
  | GetDefaultConfig =>
      Ok200 (VDict (STATIC_CONFIG ++ [("knowledge_id", VNone)]))
  | GetRoot =>
      Ok200 (VDict [("message", VStr "Streaming Avatar FastAPI Backend")])
  end.

(** What every request sent to the remote service has: the configured,
    non-empty API key in its [x-api-key] header, and a URL under the
    configured base URL. *)
Definition authenticated (q : request) : Prop :=
  exists k : string,
    HEYGEN_API_KEY cfg = Some k /\ k <> "" /\
    In ("x-api-key", k) (headers q) /\
    String.prefix (HEYGEN_BASE_URL cfg) (url q) = true.

(** C6 as the specification states it: [get_default_config] returns a
    dict whose [knowledge_id] is [None] or a non-empty string. *)
Definition config_as_stated (w : world) : Prop :=
  exists c : list (string * pyval),
    fst (get_default_config w) = inr (VDict c) /\
    (dict_lookup c "knowledge_id" = Some VNone \/
     exists s : string,
       s <> "" /\ dict_lookup c "knowledge_id" = Some (VStr s)).





(** ** Facts about the pure operations *)

Lemma kb_matches_dict (rq : KnowledgeBaseRequest) (kb : pyval) :
  is_dict kb = true -> kb_matches rq kb = inr (entry_matches rq kb).
Proof.
  destruct kb as [| | | | |l|m]; try discriminate; intros _.
  unfold kb_matches, entry_matches, field, py_get; cbn.
  destruct (dict_lookup m "name") as [n|]; cbn;
    [destruct (py_eq_str n (name rq)); cbn; [|reflexivity]|reflexivity].
  destruct (dict_lookup m "opening") as [o|]; cbn;
    [destruct (py_eq_str o (opening rq)); cbn; [|reflexivity]|reflexivity].
  destruct (dict_lookup m "prompt") as [q|]; reflexivity.
Qed.

Lemma py_get_id_dict (kb : pyval) :
  is_dict kb = true -> py_get kb "id" VNone = inr (entry_id kb).
Proof.
  destruct kb as [| | | | |l|m]; try discriminate; intros _.
  unfold py_get, entry_id, field.
  destruct (dict_lookup m "id"); reflexivity.
Qed.

(** The loop stops at the first matching object and reads its [id]; what
    follows that entry is never looked at. *)
Lemma scan_first_match (rq : KnowledgeBaseRequest) (before after : list pyval)
      (kb : pyval) :
  forallb is_dict before = true ->
  existsb (entry_matches rq) before = false ->
  is_dict kb = true ->
  entry_matches rq kb = true ->
  scan rq (before ++ kb :: after) = inr (Some (entry_id kb)).
Proof.
  intros Hd Hn Hkb Hm.
  induction before as [|x before IH]; simpl app; simpl scan.
  - rewrite (kb_matches_dict rq kb Hkb), Hm; cbn.
    rewrite (py_get_id_dict kb Hkb). reflexivity.
  - simpl in Hd, Hn.
    apply andb_true_iff in Hd as [Hx Hd].
    apply orb_false_iff in Hn as [Hnx Hn].
    rewrite (kb_matches_dict rq x Hx), Hnx; cbn.
    apply IH; assumption.
Qed.

(** On a list of objects the loop is [find]. *)
Lemma scan_find (rq : KnowledgeBaseRequest) (items : list pyval) :
  forallb is_dict items = true ->
  scan rq items = inr (option_map entry_id (find (entry_matches rq) items)).
Proof.
  induction items as [|x items IH]; simpl; intros Hd; [reflexivity|].
  apply andb_true_iff in Hd as [Hx Hd].
  rewrite (kb_matches_dict rq x Hx).
  destruct (entry_matches rq x); cbn.
  - rewrite (py_get_id_dict x Hx). reflexivity.
  - apply IH; assumption.
Qed.

Lemma dict_lookup_app (m : list (string * pyval)) (k' k : string) (v : pyval) :
  dict_lookup (m ++ [(k', v)]) k =
  match dict_lookup m k with
  | Some x => Some x
  | None => if (k' =? k)%string then Some v else None
  end.
Proof.
  induction m as [|[k0 v0] m IH]; simpl; [reflexivity|].
  destruct (k0 =? k)%string; [reflexivity|exact IH].
Qed.

Lemma truthy_str (s : string) : truthy (VStr s) = true <-> s <> "".
Proof.
  unfold truthy. destruct (String.eqb_spec s ""); cbn; split; congruence.
Qed.

(** The [or] of line 55 and line 139 on a well-formed envelope: the
    [knowledge_base_id] field when it is truthy, the [id] field otherwise. *)
Lemma extract_id_order (m d : list (string * pyval)) :
  dict_lookup m "data" = Some (VDict d) ->
  extract_id (VDict m) =
  inr (if truthy (field (VDict d) "knowledge_base_id")
       then field (VDict d) "knowledge_base_id"
       else field (VDict d) "id").
Proof.
  intros Hd. unfold extract_id, py_get, field. rewrite Hd.
  cbn [bind ret Monad_result].
  destruct (dict_lookup d "knowledge_base_id") as [a|];
    cbn [bind ret Monad_result].
  - destruct (truthy a); [reflexivity|].
    destruct (dict_lookup d "id"); reflexivity.
  - cbn [truthy]. destruct (dict_lookup d "id"); reflexivity.
Qed.

(** ** Running the handlers *)

Lemma fetch_bind {A : Type} (k : pyval -> M A) (w : world) (rq : request) :
  (resp <- send rq ;; raise_for_status resp ;; data <- json resp ;; k data) w =
  match fetched (fst (remote (remote_state w) rq)) with
  | inl e => (inl e, sent w rq (snd (remote (remote_state w) rq)))
  | inr data => k data (sent w rq (snd (remote (remote_state w) rq)))
  end.
Proof.
  cbn. unfold send, raise_for_status, json, fetched.
  destruct (remote (remote_state w) rq) as [[msg|resp] r']; cbn; [reflexivity|].
  destruct (is_success resp); cbn; [|reflexivity].
  destruct (body resp); reflexivity.
Qed.

Lemma lift_bind {A B : Type} (r : result A) (k : A -> M B) (w : world) :
  (a <- lift r ;; k a) w =
  match r with
  | inl e => (inl e, w)
  | inr a => k a w
  end.
Proof. cbn. unfold lift. destruct r; reflexivity. Qed.

Lemma list_and_scan_run (rq : KnowledgeBaseRequest) (w : world) :
  list_and_scan rq w =
  (data <- fetched (fst (remote (remote_state w) (list_request cfg))) ;;
   scanned rq data,
   sent w (list_request cfg) (snd (remote (remote_state w) (list_request cfg)))).
Proof.
  unfold list_and_scan. rewrite fetch_bind.
  destruct (fetched _) as [e|data]; cbn [bind Monad_result]; [reflexivity|].
  unfold scanned. rewrite lift_bind.
  destruct (extract_list data) as [e|kb_list]; cbn [bind Monad_result];
    [reflexivity|].
  rewrite lift_bind.
  destruct (py_iter kb_list) as [e|items]; reflexivity.
Qed.

(** [create_knowledge_base_try] in terms of the outcomes of its one or two
    remote calls. *)
Lemma create_try_run (rq : KnowledgeBaseRequest) (w : world) :
  create_knowledge_base_try rq w =
  let o1 := remote (remote_state w) (create_request cfg rq) in
  let w1 := sent w (create_request cfg rq) (snd o1) in
  match (data <- fetched (fst o1) ;; extract_id data) with
  | inl e => (inl e, w1)
  | inr kb0 =>
      if truthy kb0 then (inr (VDict [("knowledge_base_id", kb0)]), w1)
      else
        let o2 := remote (snd o1) (list_request cfg) in
        let w2 := sent w1 (list_request cfg) (snd o2) in
        match (data <- fetched (fst o2) ;; scanned rq data) with
        | inl e => (inl e, w2)
        | inr found =>
            let kb_id := match found with Some v => v | None => kb0 end in
            if truthy kb_id then (inr (VDict [("knowledge_base_id", kb_id)]), w2)
            else (inl NO_ID, w2)
        end
  end.
Proof.
  unfold create_knowledge_base_try. rewrite fetch_bind.
  cbv zeta.
  destruct (fetched _) as [e|data]; cbn [bind Monad_result]; [reflexivity|].
  rewrite lift_bind.
  destruct (extract_id data) as [e|kb0]; [reflexivity|].
  destruct (truthy kb0) eqn:Hk; cbn [negb bind ret Monad_M].
  - rewrite Hk. reflexivity.
  - rewrite list_and_scan_run. cbn [remote_state sent bind Monad_result].
    destruct (fetched _) as [e|ldata]; [reflexivity|].
    destruct (scanned rq ldata) as [e|[v|]];
      cbn [negb bind ret Monad_M raise]; [reflexivity| |].
    + destruct (truthy v); reflexivity.
    + rewrite Hk. reflexivity.
Qed.

(** [startup_try] in the same terms. *)
Lemma startup_try_run (w : world) :
  startup_try w =
  let w0 := logged w LogCreating in
  let o1 := remote (remote_state w) (create_request cfg DEFAULT_KB) in
  let w1 := sent w0 (create_request cfg DEFAULT_KB) (snd o1) in
  match (data <- fetched (fst o1) ;; extract_id data) with
  | inl e => (inl e, w1)
  | inr kb0 =>
      if truthy kb0 then
        (inr tt, logged (cached w1 kb0) (LogCreatedOrFound kb0))
      else
        let o2 := remote (snd o1) (list_request cfg) in
        let w2 := sent (cached w1 kb0) (list_request cfg) (snd o2) in
        match (data <- fetched (fst o2) ;; scanned DEFAULT_KB data) with
        | inl e => (inl e, w2)
        | inr found =>
            let kb_id := match found with Some v => v | None => kb0 end in
            let w3 := match found with Some v => cached w2 v | None => w2 end in
            if truthy kb_id then (inr tt, logged w3 (LogCreatedOrFound kb_id))
            else (inr tt, logged w3 LogNotFound)
        end
  end.
Proof.
  unfold startup_try.
  change ((print LogCreating ;; ?k) w) with (k (logged w LogCreating)).
  rewrite fetch_bind. cbv zeta. cbn [remote_state logged].
  destruct (fetched _) as [e|data]; cbn [bind Monad_result]; [reflexivity|].
  rewrite lift_bind.
  destruct (extract_id data) as [e|kb0]; [reflexivity|].
  destruct (truthy kb0) eqn:Hk;
    cbn [negb bind ret Monad_M set_default_kb_id get_default_kb_id
         default_kb_id cached print].
  - rewrite Hk. reflexivity.
  - rewrite list_and_scan_run.
    cbn [remote_state sent cached bind Monad_result].
    destruct (fetched _) as [e|ldata]; [reflexivity|].
    destruct (scanned DEFAULT_KB ldata) as [e|[v|]];
      cbn [negb bind ret Monad_M set_default_kb_id get_default_kb_id
           default_kb_id cached sent print]; [reflexivity| |].
    + destruct (truthy v); reflexivity.
    + rewrite Hk. reflexivity.
Qed.

(** [get_access_token_try] in terms of the outcome of its remote call. *)
Lemma token_try_run (w : world) :
  get_access_token_try w =
  let o := remote (remote_state w) (token_request cfg) in
  let w1 := sent w (token_request cfg) (snd o) in
  match (data <- fetched (fst o) ;;
         inner <- py_getitem data "data" ;;
         token <- py_getitem inner "token" ;;
         shown <- py_slice50 token ;;
         ret (token, shown)) with
  | inl e => (inl e, w1)
  | inr (token, shown) =>
      (inr (VDict [("token", token)]), logged w1 (LogToken shown))
  end.
Proof.
  unfold get_access_token_try. rewrite fetch_bind. cbv zeta.
  destruct (fetched _) as [e|data]; cbn [bind Monad_result]; [reflexivity|].
  rewrite lift_bind.
  destruct (py_getitem data "data") as [e|inner]; [reflexivity|].
  rewrite lift_bind.
  destruct (py_getitem inner "token") as [e|token]; [reflexivity|].
  rewrite lift_bind.
  destruct (py_slice50 token) as [e|shown]; reflexivity.
Qed.

(** ** The handlers end in a value or an [HTTPException] *)

Lemma create_knowledge_base_run (rq : KnowledgeBaseRequest) (w : world) :
  key_missing cfg = false ->
  create_knowledge_base rq w =
  match create_knowledge_base_try rq w with
  | (inr v, w') => (inr v, w')
  | (inl (HTTPStatusError resp), w') =>
      (inl (HTTPException (status_code resp)
              (Literal "Failed to create or retrieve knowledge base")), w')
  | (inl e, w') => (inl (HTTPException 500 (StrOf e)), w')
  end.
Proof.
  intros Hk. unfold create_knowledge_base, try_except. rewrite Hk.
  destruct (create_knowledge_base_try rq w) as [[e|v] w']; [|reflexivity].
  destruct e; reflexivity.
Qed.

Lemma get_access_token_run (w : world) :
  key_missing cfg = false ->
  get_access_token w =
  match get_access_token_try w with
  | (inr v, w') => (inr v, w')
  | (inl (HTTPStatusError resp), w') =>
      (inl (HTTPException (status_code resp)
              (Literal "Failed to retrieve access token")),
       logged w' (LogHTTPError resp))
  | (inl e, w') =>
      (inl (HTTPException 500 (StrOf e)), logged w' (LogException e))
  end.
Proof.
  intros Hk. unfold get_access_token, try_except. rewrite Hk.
  destruct (get_access_token_try w) as [[e|v] w']; [|reflexivity].
  destruct e; reflexivity.
Qed.

Lemma create_try_keeps_cache (rq : KnowledgeBaseRequest) (w : world) :
  default_kb_id (snd (create_knowledge_base_try rq w)) = default_kb_id w.
Proof.
  rewrite create_try_run. cbv zeta. cbn [bind Monad_result].
  repeat match goal with
         | |- context [match ?x with _ => _ end] => destruct x
         | |- context [if ?x then _ else _] => destruct x
         end; reflexivity.
Qed.

Lemma token_try_keeps_cache (w : world) :
  default_kb_id (snd (get_access_token_try w)) = default_kb_id w.
Proof.
  rewrite token_try_run. cbv zeta.
  destruct (data <- fetched _ ;; _) as [e|[token shown]]; reflexivity.
Qed.

Lemma handle_keeps_cache (rq : http_request) (w : world) :
  default_kb_id (snd (handle rq w)) = default_kb_id w.
Proof.
  destruct rq as [|kb| |]; cbn [handle].
  - destruct (key_missing cfg) eqn:Hk.
    + unfold get_access_token. rewrite Hk. reflexivity.
    + rewrite (get_access_token_run w Hk).
      pose proof (token_try_keeps_cache w) as H.
      destruct (get_access_token_try w) as [[e|v] w']; cbn [snd] in *;
        [destruct e|]; exact H.
  - destruct (key_missing cfg) eqn:Hk.
    + unfold create_knowledge_base. rewrite Hk. reflexivity.
    + rewrite (create_knowledge_base_run kb w Hk).
      pose proof (create_try_keeps_cache kb w) as H.
      destruct (create_knowledge_base_try kb w) as [[e|v] w']; cbn [snd] in *;
        [destruct e|]; exact H.
  - reflexivity.
  - reflexivity.
Qed.

Lemma serve_keeps_cache (rqs : list http_request) (w : world) :
  default_kb_id (snd (serve rqs w)) = default_kb_id w.
Proof.
  revert w. induction rqs as [|rq rest IH]; intros w; [reflexivity|].
  cbn [serve].
  pose proof (handle_keeps_cache rq w) as H.
  destruct (handle rq w) as [r w1]. cbn [snd] in H.
  specialize (IH w1).
  destruct (serve rest w1) as [rs w2]. cbn [snd] in *.
  congruence.
Qed.

(** ** Find-or-create, in terms of the two remote outcomes *)

Lemma create_try_result (rq : KnowledgeBaseRequest) (w : world) :
  fst (create_knowledge_base_try rq w) =
  match find_or_create rq (create_outcome w rq) (list_outcome w rq) with
  | inl e => inl e
  | inr kb_id =>
      if truthy kb_id then inr (VDict [("knowledge_base_id", kb_id)])
      else inl NO_ID
  end.
Proof.
  rewrite create_try_run. unfold find_or_create, create_outcome, list_outcome.
  cbv zeta. cbn [bind ret Monad_result].
  destruct (fetched _) as [e|data]; [reflexivity|].
  destruct (extract_id data) as [e|kb0]; [reflexivity|].
  destruct (truthy kb0) eqn:Hk; cbn [fst]; [rewrite Hk; reflexivity|].
  destruct (fetched _) as [e|ldata]; [reflexivity|].
  destruct (scanned rq ldata) as [e|[v|]]; [reflexivity| |].
  - destruct (truthy v); reflexivity.
  - rewrite Hk. reflexivity.
Qed.

Lemma create_result (rq : KnowledgeBaseRequest) (w : world) :
  key_missing cfg = false ->
  respond (fst (create_knowledge_base rq w)) =
  match find_or_create rq (create_outcome w rq) (list_outcome w rq) with
  | inl (HTTPStatusError resp) =>
      Error (status_code resp)
            (Literal "Failed to create or retrieve knowledge base")
  | inl e => Error 500 (StrOf e)
  | inr kb_id =>
      if truthy kb_id then respond (inr (VDict [("knowledge_base_id", kb_id)]))
      else Error 500 (StrOf NO_ID)
  end.
Proof.
  intros Hk. rewrite (create_knowledge_base_run rq w Hk).
  pose proof (create_try_result rq w) as H.
  destruct (create_knowledge_base_try rq w) as [r w']. cbn [fst] in H.
  rewrite H.
  destruct (find_or_create _ _ _) as [e|kb_id].
  - destruct e; reflexivity.
  - destruct (truthy kb_id); reflexivity.
Qed.

Lemma startup_try_result (w : world) :
  match find_or_create DEFAULT_KB (create_outcome w DEFAULT_KB)
          (list_outcome w DEFAULT_KB) with
  | inl e => fst (startup_try w) = inl e
  | inr kb_id =>
      fst (startup_try w) = inr tt /\
      default_kb_id (snd (startup_try w)) = kb_id
  end.
Proof.
  rewrite startup_try_run. unfold find_or_create, create_outcome, list_outcome.
  cbv zeta. cbn [bind ret Monad_result].
  destruct (fetched _) as [e|data]; [reflexivity|].
  destruct (extract_id data) as [e|kb0]; [reflexivity|].
  destruct (truthy kb0) eqn:Hk; [split; reflexivity|].
  destruct (fetched _) as [e|ldata]; [reflexivity|].
  destruct (scanned DEFAULT_KB ldata) as [e|[v|]]; [reflexivity| |].
  - destruct (truthy v); split; reflexivity.
  - rewrite Hk. split; reflexivity.
Qed.

Lemma startup_event_run (w : world) :
  key_missing cfg = false ->
  startup_event w =
  match startup_try w with
  | (inl e, w1) => (inr tt, cached (logged w1 (LogStartupError e)) VNone)
  | (inr u, w1) => (inr u, w1)
  end.
Proof.
  intros Hk. unfold startup_event, try_except. rewrite Hk.
  destruct (startup_try w) as [[e|u] w1]; reflexivity.
Qed.

Lemma startup_never_raises (w : world) : fst (startup_event w) = inr tt.
Proof.
  destruct (key_missing cfg) eqn:Hk.
  - unfold startup_event. rewrite Hk. reflexivity.
  - rewrite (startup_event_run w Hk).
    pose proof (startup_try_result w) as H.
    destruct (startup_try w) as [[e|[]] w1]; reflexivity.
Qed.

(** What the startup hook leaves in the cache. *)
Lemma startup_cache (w : world) :
  key_missing cfg = false ->
  default_kb_id (snd (startup_event w)) =
  match find_or_create DEFAULT_KB (create_outcome w DEFAULT_KB)
          (list_outcome w DEFAULT_KB) with
  | inl _ => VNone
  | inr kb_id => kb_id
  end.
Proof.
  intros Hk. rewrite (startup_event_run w Hk).
  pose proof (startup_try_result w) as H.
  destruct (find_or_create _ _ _) as [e|kb_id].
  - destruct (startup_try w) as [r w1]. cbn [fst] in H. rewrite H. reflexivity.
  - destruct H as [H1 H2].
    destruct (startup_try w) as [r w1]. cbn [fst snd] in *. rewrite H1.
    exact H2.
Qed.

Lemma find_or_create_fallback
      (w : world) (rq : KnowledgeBaseRequest) (items : list pyval) :
  create_without_id w rq ->
  listed w rq items ->
  exists kb0 : pyval,
    truthy kb0 = false /\
    find_or_create rq (create_outcome w rq) (list_outcome w rq) =
    (found <- scan rq items ;;
     ret (match found with Some v => v | None => kb0 end)).
Proof.
  intros (data & kb0 & Hc & He & Hf) (list_data & Hl & Hx).
  exists kb0. split; [exact Hf|].
  unfold find_or_create, scanned. rewrite Hc. cbn [bind Monad_result].
  rewrite He. cbn [bind Monad_result]. rewrite Hf, Hl.
  cbn [bind Monad_result]. rewrite Hx. reflexivity.
Qed.

(** In that situation both remote calls have been issued, in this order. *)
Lemma fallback_calls (w : world) (rq : KnowledgeBaseRequest) :
  key_missing cfg = false ->
  create_without_id w rq ->
  outbound (snd (create_knowledge_base rq w)) =
  (outbound w ++ [create_request cfg rq; list_request cfg])%list.
Proof.
  intros Hk (data & kb0 & Hc & He & Hf).
  rewrite (create_knowledge_base_run rq w Hk), create_try_run. cbv zeta.
  unfold create_outcome in Hc. rewrite Hc. cbn [bind Monad_result].
  rewrite He, Hf.
  assert (Hout : forall r2 : R,
             outbound (sent (sent w (create_request cfg rq)
                                  (snd (remote (remote_state w)
                                               (create_request cfg rq))))
                            (list_request cfg) r2) =
             (outbound w ++ [create_request cfg rq; list_request cfg])%list).
  { intros r2. cbn [outbound sent]. rewrite <- app_assoc. reflexivity. }
  destruct (fetched (fst (remote _ (list_request cfg)))) as [e|ldata];
    cbn [bind Monad_result].
  - destruct e; apply Hout.
  - destruct (scanned rq ldata) as [e|found].
    + destruct e; apply Hout.
    + destruct (truthy match found with Some v => v | None => kb0 end);
        apply Hout.
Qed.

(** ** How failures surface *)

Lemma fetched_status_error (o : outcome) (resp : response) :
  o = inr resp -> is_success resp = false ->
  fetched o = inl (HTTPStatusError resp).
Proof. intros -> H. unfold fetched. rewrite H. reflexivity. Qed.

Lemma create_try_raises_early
      (rq : KnowledgeBaseRequest) (w : world) (e : exn) :
  fetched (create_outcome w rq) = inl e ->
  fst (create_knowledge_base_try rq w) = inl e.
Proof.
  intros H. rewrite create_try_result. unfold find_or_create. rewrite H.
  reflexivity.
Qed.

Lemma create_try_raises_late
      (rq : KnowledgeBaseRequest) (w : world) (e : exn) :
  create_without_id w rq ->
  fetched (list_outcome w rq) = inl e ->
  fst (create_knowledge_base_try rq w) = inl e.
Proof.
  intros (data & kb0 & Hc & He & Hf) H. rewrite create_try_result.
  unfold find_or_create. rewrite Hc. cbn [bind Monad_result].
  rewrite He. cbn [bind Monad_result]. rewrite Hf, H. reflexivity.
Qed.

Lemma token_try_raises (w : world) (e : exn) :
  fetched (token_outcome w) = inl e ->
  fst (get_access_token_try w) = inl e.
Proof.
  intros H. rewrite token_try_run. cbv zeta. unfold token_outcome in H.
  rewrite H. reflexivity.
Qed.

(** The two [except] clauses of [get_access_token] (lines 109-114). *)
Lemma token_except (w : world) (e : exn) :
  key_missing cfg = false ->
  fst (get_access_token_try w) = inl e ->
  respond (fst (get_access_token w)) =
  match e with
  | HTTPStatusError resp =>
      Error (status_code resp) (Literal "Failed to retrieve access token")
  | _ => Error 500 (StrOf e)
  end.
Proof.
  intros Hk H. rewrite (get_access_token_run w Hk).
  destruct (get_access_token_try w) as [r w']. cbn [fst] in H. subst r.
  destruct e; reflexivity.
Qed.

(** The two [except] clauses of [create_knowledge_base] (lines 166-169). *)
Lemma create_except (rq : KnowledgeBaseRequest) (w : world) (e : exn) :
  key_missing cfg = false ->
  fst (create_knowledge_base_try rq w) = inl e ->
  respond (fst (create_knowledge_base rq w)) =
  match e with
  | HTTPStatusError resp =>
      Error (status_code resp)
            (Literal "Failed to create or retrieve knowledge base")
  | _ => Error 500 (StrOf e)
  end.
Proof.
  intros Hk H. rewrite (create_knowledge_base_run rq w Hk).
  destruct (create_knowledge_base_try rq w) as [r w']. cbn [fst] in H. subst r.
  destruct e; reflexivity.
Qed.

Lemma except_other (e : exn) (generic : string) :
  (forall resp, e <> HTTPStatusError resp) ->
  match e with
  | HTTPStatusError resp => Error (status_code resp) (Literal generic)
  | _ => Error 500 (StrOf e)
  end = Error 500 (StrOf e).
Proof.
  intros H. destruct e; try reflexivity. exfalso. exact (H resp eq_refl).
Qed.

(** ** Calling [create_knowledge_base] twice *)

Lemma create_fst (rq : KnowledgeBaseRequest) (w : world) :
  key_missing cfg = false ->
  fst (create_knowledge_base rq w) =
  create_answer
    (find_or_create rq (create_outcome w rq) (list_outcome w rq)).
Proof.
  intros Hk. rewrite (create_knowledge_base_run rq w Hk).
  pose proof (create_try_result rq w) as H.
  destruct (create_knowledge_base_try rq w) as [r w']. cbn [fst] in H.
  rewrite H. unfold create_answer.
  destruct (find_or_create _ _ _) as [e|kb_id].
  - destruct e; reflexivity.
  - destruct (truthy kb_id); reflexivity.
Qed.

Lemma create_remote_state (rq : KnowledgeBaseRequest) (w : world) :
  key_missing cfg = false ->
  listing_consistent ->
  remote_state (snd (create_knowledge_base rq w)) =
  snd (remote (remote_state w) (create_request cfg rq)).
Proof.
  intros Hk Hl. rewrite (create_knowledge_base_run rq w Hk), create_try_run.
  cbv zeta. cbn [bind Monad_result].
  destruct (fetched (fst (remote (remote_state w) _))) as [e|data];
    [destruct e; reflexivity|].
  destruct (extract_id data) as [e|kb0]; [destruct e; reflexivity|].
  destruct (truthy kb0); [reflexivity|].
  assert (Hst : forall x : result pyval * world,
             snd x = sent (sent w (create_request cfg rq)
                             (snd (remote (remote_state w)
                                          (create_request cfg rq))))
                          (list_request cfg)
                          (snd (remote (snd (remote (remote_state w)
                                                    (create_request cfg rq)))
                                       (list_request cfg))) ->
             remote_state (snd x) =
             snd (remote (remote_state w) (create_request cfg rq))).
  { intros x ->. cbn [remote_state sent]. apply Hl. }
  destruct (fetched (fst (remote _ (list_request cfg)))) as [e|ldata].
  - destruct e; apply Hst; reflexivity.
  - destruct (scanned rq ldata) as [e|found].
    + destruct e; apply Hst; reflexivity.
    + destruct (truthy match found with Some v => v | None => kb0 end);
        apply Hst; reflexivity.
Qed.

(** ** Claims *)

(** C4. If the server credential is absent (the API key is unset or empty),
    then on every input and in every state [get_access_token] and
    [create_knowledge_base] raise [HTTPException] with status 500 and the
    credential-missing detail, and the world is left as it was: no outbound
    request is issued and the remote service is not touched. *)
Theorem credential_absent_no_remote_call
        (w : world) (rq : KnowledgeBaseRequest) :
  HEYGEN_API_KEY cfg = None \/ HEYGEN_API_KEY cfg = Some "" ->
  get_access_token w = (inl KEY_MISSING, w) /\
  create_knowledge_base rq w = (inl KEY_MISSING, w) /\
  outbound (snd (get_access_token w)) = outbound w /\
  outbound (snd (create_knowledge_base rq w)) = outbound w /\
  respond (fst (get_access_token w)) =
    Error 500 (Literal "API key is missing from environment") /\
  respond (fst (create_knowledge_base rq w)) =
    Error 500 (Literal "API key is missing from environment").
Proof.
  intros H.
  assert (Hk : key_missing cfg = true).
  { unfold key_missing. destruct H as [H|H]; rewrite H; reflexivity. }
  unfold get_access_token, create_knowledge_base. rewrite Hk.
  repeat split.
Qed.

(** C7. The cached identifier is written by the startup hook only: no
    handler ([get_access_token], [create_knowledge_base],
    [get_default_config], [root]) changes [default_kb_id], so after any
    number of served requests it still has the value the single startup
    transition left, and if that value is [None] it stays [None]. *)
Theorem default_kb_id_read_only_after_startup
        (r0 : R) (rqs : list http_request) :
  (forall (rq : http_request) (w : world),
      default_kb_id (snd (handle rq w)) = default_kb_id w) /\
  (forall n : nat,
      default_kb_id (snd (run r0 (firstn n rqs))) =
      default_kb_id (snd (startup_event (initial_world r0)))) /\
  (default_kb_id (snd (startup_event (initial_world r0))) = VNone ->
   forall n : nat, default_kb_id (snd (run r0 (firstn n rqs))) = VNone).
Proof.
  split; [exact handle_keeps_cache|].
  assert (H : forall n : nat,
             default_kb_id (snd (run r0 (firstn n rqs))) =
             default_kb_id (snd (startup_event (initial_world r0)))).
  { intros n. unfold run. apply serve_keeps_cache. }
  split; [exact H|].
  intros Hnone n. rewrite H. exact Hnone.
Qed.


Lemma renderable_config (v : pyval) :
  renderable (VDict (STATIC_CONFIG ++ [("knowledge_id", v)])) = renderable v.
Proof.
  cbn [renderable]. rewrite forallb_app.
  change (forallb (fun kv : string * pyval => renderable (snd kv))
                  STATIC_CONFIG) with true.
  cbn [forallb snd andb]. apply andb_true_r.
Qed.

Lemma knowledge_id_appended (v : pyval) :
  dict_lookup (STATIC_CONFIG ++ [("knowledge_id", v)]) "knowledge_id" = Some v.
Proof. rewrite dict_lookup_app. reflexivity. Qed.

Lemma get_default_config_run (w : world) :
  get_default_config w =
  (inr (VDict (STATIC_CONFIG ++
               [("knowledge_id",
                 if truthy (default_kb_id w) then default_kb_id w else VNone)])),
   w).
Proof.
  unfold get_default_config, get_default_kb_id. cbn [bind ret Monad_M].
  destruct (truthy (default_kb_id w)); reflexivity.
Qed.

(** C6 as amended.  [get_default_config] returns in every state, whatever
    startup left in the cache, and leaves the world as it was (no remote
    call); every field but [knowledge_id] is the constant of the source;
    [knowledge_id] is the cached value when that is truthy, whatever JSON
    value it is, and [None] otherwise: never the empty string, and a
    non-empty string whenever the cached value is a string.  The client
    receives this dict with status 200 when the cached value can be
    rendered as JSON. *)
Theorem get_default_config_never_fails (w : world) :
  exists c : list (string * pyval),
    get_default_config w = (inr (VDict c), w) /\
    outbound (snd (get_default_config w)) = outbound w /\
    (dict_lookup c "knowledge_id" = Some VNone \/
     (dict_lookup c "knowledge_id" = Some (default_kb_id w) /\
      truthy (default_kb_id w) = true)) /\
    dict_lookup c "knowledge_id" <> Some (VStr "") /\
    (forall s : string,
        default_kb_id w = VStr s ->
        dict_lookup c "knowledge_id" = Some VNone \/
        (s <> "" /\ dict_lookup c "knowledge_id" = Some (VStr s))) /\
    (forall k, k <> "knowledge_id" ->
               dict_lookup c k = dict_lookup STATIC_CONFIG k) /\
    (renderable (default_kb_id w) = true ->
     respond (fst (get_default_config w)) = Ok200 (VDict c)).
Proof.
  rewrite get_default_config_run.
  eexists. split; [reflexivity|]. split; [reflexivity|].
  rewrite knowledge_id_appended.
  split; [|split; [|split; [|split]]].
  - destruct (truthy (default_kb_id w)) eqn:Ht;
      [right; split; reflexivity|left; reflexivity].
  - destruct (truthy (default_kb_id w)) eqn:Ht; [|discriminate].
    intros Heq. injection Heq as Heq. rewrite Heq in Ht. discriminate.
  - intros s Hs. rewrite Hs.
    destruct (truthy (VStr s)) eqn:Ht; [right|left; reflexivity].
    split; [apply truthy_str; exact Ht|reflexivity].
  - intros k Hk. rewrite dict_lookup_app.
    destruct (dict_lookup STATIC_CONFIG k); [reflexivity|].
    destruct (String.eqb_spec "knowledge_id" k); [|reflexivity].
    congruence.
  - intros Hr. cbn [fst respond]. rewrite renderable_config.
    destruct (truthy (default_kb_id w)); [rewrite Hr|]; reflexivity.
Qed.

(** C10. The dict returned by [get_default_config] always has the key
    [knowledge_id]: its value is the cached identifier when that is truthy,
    and [None] (JSON [null]) otherwise, as when nothing is cached or the
    cached value is the empty string; the key is never left out. *)
Theorem get_default_config_has_knowledge_id (w : world) :
  exists c : list (string * pyval),
    fst (get_default_config w) = inr (VDict c) /\
    In "knowledge_id" (map fst c) /\
    dict_lookup c "knowledge_id" =
      Some (if truthy (default_kb_id w) then default_kb_id w else VNone) /\
    (truthy (default_kb_id w) = false ->
     dict_lookup c "knowledge_id" = Some VNone).
Proof.
  rewrite get_default_config_run. eexists. split; [reflexivity|].
  split; [|split].
  - rewrite map_app. apply in_or_app. right. left. reflexivity.
  - apply knowledge_id_appended.
  - intros Hf. rewrite knowledge_id_appended, Hf. reflexivity.
Qed.

(** C8. The startup hook never raises, so the process goes on to serve
    requests.  Without a credential it only prints one line: nothing is
    sent and the cache keeps its value, [None] in a fresh process.  With a
    credential, an exception [e] raised anywhere in the [try] body (the
    create call, the extraction, the list call or the scan) is caught and
    printed and the cache is reset to [None]. *)
Theorem startup_failure_not_fatal (w : world) :
  fst (startup_event w) = inr tt /\
  (key_missing cfg = true ->
   startup_event w = (inr tt, logged w LogKeyMissing) /\
   outbound (snd (startup_event w)) = outbound w /\
   default_kb_id (snd (startup_event w)) = default_kb_id w) /\
  (key_missing cfg = false ->
   forall (e : exn) (w1 : world),
     startup_try w = (inl e, w1) ->
     startup_event w = (inr tt, cached (logged w1 (LogStartupError e)) VNone)) /\
  (key_missing cfg = false ->
   forall e : exn,
     find_or_create DEFAULT_KB (create_outcome w DEFAULT_KB)
       (list_outcome w DEFAULT_KB) = inl e ->
     default_kb_id (snd (startup_event w)) = VNone /\
     In (LogStartupError e) (stdout (snd (startup_event w)))).
Proof.
  split; [apply startup_never_raises|].
  split; [|split].
  - intros Hk. unfold startup_event. rewrite Hk. repeat split.
  - intros Hk e w1 Htry. rewrite (startup_event_run w Hk), Htry. reflexivity.
  - intros Hk e Hfc.
    pose proof (startup_try_result w) as H. rewrite Hfc in H.
    rewrite (startup_event_run w Hk).
    destruct (startup_try w) as [r w1]. cbn [fst] in H. subst r.
    cbn [snd default_kb_id cached stdout logged]. split; [reflexivity|].
    apply in_or_app. right. left. reflexivity.
Qed.

(** C2. When the remote create call succeeds with a body whose [data]
    envelope is an object, the identifier is the envelope's
    [knowledge_base_id] if that is truthy and its [id] otherwise, whenever
    one of the two is truthy: [create_knowledge_base] then answers
    [{"knowledge_base_id": <identifier>}] after that single remote call, and
    the startup hook, run on the same create response, caches the same
    identifier. *)
Theorem identifier_extraction_order
        (w : world) (rq : KnowledgeBaseRequest) (resp : response) (r1 : R)
        (m d : list (string * pyval)) :
  key_missing cfg = false ->
  remote (remote_state w) (create_request cfg rq) = (inr resp, r1) ->
  is_success resp = true ->
  body resp = Some (VDict m) ->
  dict_lookup m "data" = Some (VDict d) ->
  let first := field (VDict d) "knowledge_base_id" in
  let second := field (VDict d) "id" in
  let kb_id := if truthy first then first else second in
  truthy kb_id = true ->
  create_knowledge_base rq w =
    (inr (VDict [("knowledge_base_id", kb_id)]),
     sent w (create_request cfg rq) r1) /\
  (rq = DEFAULT_KB -> default_kb_id (snd (startup_event w)) = kb_id).
Proof.
  intros Hk Hremote Hok Hbody Hdata first second kb_id Hkb.
  assert (Hx : fetched (inr resp) = inr (VDict m)).
  { unfold fetched. rewrite Hok, Hbody. reflexivity. }
  pose proof (extract_id_order m d Hdata) as Hex.
  fold first second kb_id in Hex.
  split.
  - rewrite (create_knowledge_base_run rq w Hk), create_try_run. cbv zeta.
    rewrite Hremote. cbn [fst snd]. rewrite Hx. cbn [bind Monad_result].
    rewrite Hex, Hkb. reflexivity.
  - intros ->. rewrite (startup_cache w Hk).
    unfold find_or_create, create_outcome. rewrite Hremote. cbn [fst].
    rewrite Hx. cbn [bind Monad_result]. rewrite Hex. cbn [bind Monad_result].
    rewrite Hkb. reflexivity.
Qed.


Lemma entry_matches_is_dict (rq : KnowledgeBaseRequest) (kb : pyval) :
  entry_matches rq kb = true -> is_dict kb = true.
Proof. destruct kb; try discriminate. reflexivity. Qed.

(** Without a matching entry the loop runs to the end, or raises at an
    entry that is not an object. *)
Lemma scan_without_match (rq : KnowledgeBaseRequest) (items : list pyval) :
  existsb (entry_matches rq) items = false ->
  scan rq items = inr None \/
  exists obj, scan rq items = inl (AttributeError obj "get").
Proof.
  induction items as [|x items IH]; simpl; intros Hn; [left; reflexivity|].
  apply orb_false_iff in Hn as [Hnx Hn].
  destruct (is_dict x) eqn:Hx.
  - rewrite (kb_matches_dict rq x Hx), Hnx. cbn. apply IH, Hn.
  - right. exists x. destruct x; try discriminate; reflexivity.
Qed.

(** C1 as amended.  In the fallback, [create_knowledge_base] has issued the
    create call and then the list call.  When the entries before the first
    one whose triple matches are objects, it returns
    [{"knowledge_base_id": <id field of that entry>}] provided that [id]
    field is truthy (and the client receives it as a 200 answer when the
    value can be rendered as JSON), and raises [HTTPException] with status
    500 when that field is missing or falsy, whatever follows that entry.
    When no entry matches, it raises [HTTPException] with status 500. *)
Theorem create_fallback_scan
        (w : world) (rq : KnowledgeBaseRequest) (items : list pyval) :
  key_missing cfg = false ->
  create_without_id w rq ->
  listed w rq items ->
  outbound (snd (create_knowledge_base rq w)) =
    (outbound w ++ [create_request cfg rq; list_request cfg])%list /\
  (forall (before after : list pyval) (kb : pyval),
      items = (before ++ kb :: after)%list ->
      forallb is_dict before = true ->
      existsb (entry_matches rq) before = false ->
      entry_matches rq kb = true ->
      fst (create_knowledge_base rq w) =
        (if truthy (entry_id kb)
         then inr (VDict [("knowledge_base_id", entry_id kb)])
         else inl (HTTPException 500 (StrOf NO_ID))) /\
      (truthy (entry_id kb) = true ->
       renderable (entry_id kb) = true ->
       respond (fst (create_knowledge_base rq w)) =
         Ok200 (VDict [("knowledge_base_id", entry_id kb)]))) /\
  (existsb (entry_matches rq) items = false ->
   exists e : exn,
     fst (create_knowledge_base rq w) = inl (HTTPException 500 (StrOf e))).
Proof.
  intros Hk Hc Hl.
  split; [exact (fallback_calls w rq Hk Hc)|].
  destruct (find_or_create_fallback w rq _ Hc Hl) as (kb0 & Hkb0 & Hfc).
  split.
  - intros before after kb -> Hbefore Hnone Hmatch.
    rewrite (scan_first_match rq before after kb Hbefore Hnone
               (entry_matches_is_dict rq kb Hmatch) Hmatch) in Hfc.
    cbn [bind ret Monad_result] in Hfc.
    assert (Hfst : fst (create_knowledge_base rq w) =
                   (if truthy (entry_id kb)
                    then inr (VDict [("knowledge_base_id", entry_id kb)])
                    else inl (HTTPException 500 (StrOf NO_ID)))).
    { rewrite (create_fst rq w Hk), Hfc. reflexivity. }
    split; [exact Hfst|].
    intros Ht Hr. rewrite Hfst, Ht. cbn [respond renderable forallb snd].
    rewrite Hr. reflexivity.
  - intros Hnone. rewrite (create_fst rq w Hk), Hfc.
    destruct (scan_without_match rq items Hnone) as [Hs|[obj Hs]];
      rewrite Hs; cbn [bind ret Monad_result create_answer].
    + rewrite Hkb0. exists NO_ID. reflexivity.
    + exists (AttributeError obj "get"). reflexivity.
Qed.

(** C5. With a credential configured: a remote response with a non-success
    status makes [get_access_token] (token call) and
    [create_knowledge_base] (create call, or list call of the fallback)
    fail with exactly that status code and a generic detail; every other
    exception [e] raised in the [try] body, such as a transport failure or
    a body that is not JSON, makes them fail with status 500 and detail
    [str(e)]. *)
Theorem remote_failures_mapped (w : world) (rq : KnowledgeBaseRequest) :
  key_missing cfg = false ->
  (forall resp : response,
      token_outcome w = inr resp -> is_success resp = false ->
      respond (fst (get_access_token w)) =
      Error (status_code resp) (Literal "Failed to retrieve access token")) /\
  (forall resp : response,
      create_outcome w rq = inr resp -> is_success resp = false ->
      respond (fst (create_knowledge_base rq w)) =
      Error (status_code resp)
            (Literal "Failed to create or retrieve knowledge base")) /\
  (forall resp : response,
      create_without_id w rq ->
      list_outcome w rq = inr resp -> is_success resp = false ->
      respond (fst (create_knowledge_base rq w)) =
      Error (status_code resp)
            (Literal "Failed to create or retrieve knowledge base")) /\
  (forall e : exn,
      fst (get_access_token_try w) = inl e ->
      (forall resp, e <> HTTPStatusError resp) ->
      respond (fst (get_access_token w)) = Error 500 (StrOf e)) /\
  (forall e : exn,
      fst (create_knowledge_base_try rq w) = inl e ->
      (forall resp, e <> HTTPStatusError resp) ->
      respond (fst (create_knowledge_base rq w)) = Error 500 (StrOf e)) /\
  (forall msg : string,
      token_outcome w = inl msg ->
      respond (fst (get_access_token w)) = Error 500 (StrOf (RequestError msg))) /\
  (forall msg : string,
      create_outcome w rq = inl msg ->
      respond (fst (create_knowledge_base rq w)) =
      Error 500 (StrOf (RequestError msg))) /\
  (forall resp : response,
      token_outcome w = inr resp -> is_success resp = true ->
      body resp = None ->
      respond (fst (get_access_token w)) = Error 500 (StrOf JSONDecodeError)) /\
  (forall resp : response,
      create_outcome w rq = inr resp -> is_success resp = true ->
      body resp = None ->
      respond (fst (create_knowledge_base rq w)) =
      Error 500 (StrOf JSONDecodeError)).
Proof.
  intros Hk. repeat split.
  - intros resp Ho Hs.
    rewrite (token_except w (HTTPStatusError resp) Hk); [reflexivity|].
    apply token_try_raises, fetched_status_error; assumption.
  - intros resp Ho Hs.
    rewrite (create_except rq w (HTTPStatusError resp) Hk); [reflexivity|].
    apply create_try_raises_early, fetched_status_error; assumption.
  - intros resp Hc Ho Hs.
    rewrite (create_except rq w (HTTPStatusError resp) Hk); [reflexivity|].
    apply create_try_raises_late; [exact Hc|].
    apply fetched_status_error; assumption.
  - intros e He Hother. rewrite (token_except w e Hk He).
    apply except_other, Hother.
  - intros e He Hother. rewrite (create_except rq w e Hk He).
    apply except_other, Hother.
  - intros msg Ho.
    rewrite (token_except w (RequestError msg) Hk); [reflexivity|].
    apply token_try_raises. rewrite Ho. reflexivity.
  - intros msg Ho.
    rewrite (create_except rq w (RequestError msg) Hk); [reflexivity|].
    apply create_try_raises_early. rewrite Ho. reflexivity.
  - intros resp Ho Hs Hb.
    rewrite (token_except w JSONDecodeError Hk); [reflexivity|].
    apply token_try_raises. rewrite Ho. unfold fetched. rewrite Hs, Hb.
    reflexivity.
  - intros resp Ho Hs Hb.
    rewrite (create_except rq w JSONDecodeError Hk); [reflexivity|].
    apply create_try_raises_early. rewrite Ho. unfold fetched.
    rewrite Hs, Hb. reflexivity.
Qed.

(** The case of a remote service that answers a repeated create exactly as
    the first one: the second call replays the first. *)
Lemma create_twice_replayed (w : world) (rq : KnowledgeBaseRequest) :
  listing_consistent ->
  create_idempotent rq ->
  let first := create_knowledge_base rq w in
  let second := create_knowledge_base rq (snd first) in
  fst second = fst first /\
  (forall kb_id : pyval,
      respond (fst first) = Ok200 (VDict [("knowledge_base_id", kb_id)]) ->
      respond (fst second) = Ok200 (VDict [("knowledge_base_id", kb_id)])).
Proof.
  intros Hl Hc first second.
  assert (Heq : fst second = fst first).
  { subst first second.
    destruct (key_missing cfg) eqn:Hk.
    - unfold create_knowledge_base. rewrite Hk. reflexivity.
    - rewrite (create_fst rq (snd (create_knowledge_base rq w)) Hk).
      rewrite (create_fst rq w Hk).
      unfold create_outcome, list_outcome.
      rewrite (create_remote_state rq w Hk Hl), Hc. reflexivity. }
  split; [exact Heq|].
  intros kb_id H. rewrite Heq. exact H.
Qed.





(** ** Which exceptions the steps raise *)

Lemma py_get_raises (obj : pyval) (key : string) (default : pyval) (e : exn) :
  py_get obj key default = inl e ->
  e = AttributeError obj "get" /\ is_dict obj = false.
Proof.
  destruct obj; cbn; try (intros [= <-]; split; reflexivity).
  destruct (dict_lookup m key); discriminate.
Qed.

Lemma extract_id_raises (data : pyval) (e : exn) :
  extract_id data = inl e -> exists obj, e = AttributeError obj "get".
Proof.
  unfold extract_id. cbn [bind ret Monad_result].
  destruct (py_get data "data" (VDict [])) as [e1|d] eqn:H1.
  - intros [= <-]. exists data. apply (py_get_raises _ _ _ _ H1).
  - destruct (py_get d "knowledge_base_id" VNone) as [e2|a] eqn:H2.
    + intros [= <-]. exists d. apply (py_get_raises _ _ _ _ H2).
    + destruct (truthy a); [discriminate|].
      intros H. exists d. apply (py_get_raises _ _ _ _ H).
Qed.

Lemma kb_matches_raises (rq : KnowledgeBaseRequest) (kb : pyval) (e : exn) :
  kb_matches rq kb = inl e ->
  e = AttributeError kb "get" /\ is_dict kb = false.
Proof.
  destruct (is_dict kb) eqn:Hd.
  - rewrite (kb_matches_dict rq kb Hd). discriminate.
  - destruct kb; try discriminate; cbn; intros [= <-]; split; reflexivity.
Qed.

Lemma scan_raises (rq : KnowledgeBaseRequest) (items : list pyval) (e : exn) :
  scan rq items = inl e ->
  exists obj, e = AttributeError obj "get" /\ In obj items /\ is_dict obj = false.
Proof.
  induction items as [|kb rest IH]; simpl; [discriminate|].
  destruct (kb_matches rq kb) as [e1|b] eqn:Hm.
  - intros [= <-]. exists kb.
    destruct (kb_matches_raises rq kb e1 Hm) as [-> Hd].
    split; [reflexivity|]. split; [left; reflexivity|exact Hd].
  - destruct b.
    + destruct (py_get kb "id" VNone) as [e2|v] eqn:Hid; [|discriminate].
      intros [= <-]. exists kb.
      destruct (py_get_raises _ _ _ _ Hid) as [-> Hd].
      split; [reflexivity|]. split; [left; reflexivity|exact Hd].
    + intros H. destruct (IH H) as (obj & He & Hin & Hd).
      exists obj. split; [exact He|]. split; [right; exact Hin|exact Hd].
Qed.

Lemma scanned_raises (rq : KnowledgeBaseRequest) (list_data : pyval) (e : exn) :
  scanned rq list_data = inl e ->
  (exists obj, e = AttributeError obj "get") \/ (exists obj, e = TypeError obj).
Proof.
  unfold scanned, extract_list. cbn [bind ret Monad_result].
  destruct (py_get list_data "data" (VDict [])) as [e1|d] eqn:H1.
  - intros [= <-]. left. exists list_data. apply (py_get_raises _ _ _ _ H1).
  - destruct (py_get d "list" (VList [])) as [e2|kb_list] eqn:H2.
    + intros [= <-]. left. exists d. apply (py_get_raises _ _ _ _ H2).
    + destruct (py_iter kb_list) as [e3|items] eqn:H3.
      * intros [= <-]. right. exists kb_list.
        destruct kb_list; cbn in H3; congruence.
      * intros H. destruct (scan_raises rq items e H) as (obj & He & _).
        left. exists obj. exact He.
Qed.

Lemma fetched_status_only (o : outcome) (resp : response) :
  fetched o = inl (HTTPStatusError resp) ->
  o = inr resp /\ is_success resp = false.
Proof.
  destruct o as [msg|r]; cbn; [discriminate|].
  destruct (is_success r) eqn:Hs.
  - destruct (body r); discriminate.
  - intros [= <-]. split; [reflexivity|exact Hs].
Qed.

(** Find-or-create raises [HTTPStatusError] only for a non-2xx response to
    one of its two calls. *)
Lemma find_or_create_status_only
      (rq : KnowledgeBaseRequest) (o1 o2 : outcome) (resp : response) :
  find_or_create rq o1 o2 = inl (HTTPStatusError resp) ->
  (o1 = inr resp \/ o2 = inr resp) /\ is_success resp = false.
Proof.
  unfold find_or_create. cbn [bind ret Monad_result].
  destruct (fetched o1) as [e1|data] eqn:H1.
  - intros [= ->]. destruct (fetched_status_only o1 resp H1) as [-> Hs].
    split; [left; reflexivity|exact Hs].
  - destruct (extract_id data) as [e2|kb0] eqn:H2.
    + intros [= ->]. destruct (extract_id_raises data _ H2) as [obj Hobj].
      discriminate.
    + destruct (truthy kb0); [discriminate|].
      destruct (fetched o2) as [e3|ldata] eqn:H3.
      * intros [= ->]. destruct (fetched_status_only o2 resp H3) as [-> Hs].
        split; [right; reflexivity|exact Hs].
      * destruct (scanned rq ldata) as [e4|found] eqn:H4; [|discriminate].
        intros [= ->].
        destruct (scanned_raises rq ldata _ H4) as [[obj Hobj]|[obj Hobj]];
          discriminate.
Qed.

(** Find-or-create never raises an [HTTPException] itself. *)
Lemma find_or_create_no_http_exception
      (rq : KnowledgeBaseRequest) (o1 o2 : outcome) (status : Z) (d : detail) :
  find_or_create rq o1 o2 <> inl (HTTPException status d).
Proof.
  unfold find_or_create. cbn [bind ret Monad_result].
  destruct (fetched o1) as [e1|data] eqn:H1.
  - destruct o1 as [msg|r]; cbn in H1; [congruence|].
    destruct (is_success r); [destruct (body r)|]; congruence.
  - destruct (extract_id data) as [e2|kb0] eqn:H2.
    + destruct (extract_id_raises data _ H2) as [obj ->]. discriminate.
    + destruct (truthy kb0); [discriminate|].
      destruct (fetched o2) as [e3|ldata] eqn:H3.
      * destruct o2 as [msg|r]; cbn in H3; [congruence|].
        destruct (is_success r); [destruct (body r)|]; congruence.
      * destruct (scanned rq ldata) as [e4|found] eqn:H4; [|discriminate].
        destruct (scanned_raises rq ldata _ H4) as [[obj ->]|[obj ->]];
          discriminate.
Qed.

Lemma token_try_status_only (w : world) (resp : response) :
  fst (get_access_token_try w) = inl (HTTPStatusError resp) ->
  token_outcome w = inr resp /\ is_success resp = false.
Proof.
  rewrite token_try_run. cbv zeta. unfold token_outcome.
  cbn [bind ret Monad_result].
  destruct (fetched (fst (remote (remote_state w) (token_request cfg))))
    as [e|data] eqn:Hf.
  - cbn [fst]. intros [= ->]. exact (fetched_status_only _ _ Hf).
  - destruct (py_getitem data "data") as [e|inner] eqn:H1.
    + cbn [fst]. intros [= ->].
      destruct data; cbn in H1; try discriminate.
      destruct (dict_lookup m "data"); discriminate.
    + destruct (py_getitem inner "token") as [e|token] eqn:H2.
      * cbn [fst]. intros [= ->].
        destruct inner; cbn in H2; try discriminate.
        destruct (dict_lookup m "token"); discriminate.
      * destruct (py_slice50 token) as [e|shown] eqn:H3; [|discriminate].
        cbn [fst]. intros [= ->]. destruct token; discriminate.
Qed.

Lemma respond_value_not_error (v : pyval) (status : Z) (d : detail) :
  respond (inr v) <> Error status d.
Proof. cbn. destruct (renderable v); discriminate. Qed.


(** ** Further properties of the handlers *)


(** X2. The status of an error answer is 500 or the status of a non-2xx
    response the remote service gave to one of the handler's own calls; in
    particular an error answer never carries a 2xx status. *)
Theorem error_status_is_500_or_remote
        (rq : http_request) (w : world) (status : Z) (d : detail) :
  respond (fst (handle rq w)) = Error status d ->
  (status = 500 \/
   exists resp : response,
     is_success resp = false /\ status = status_code resp /\
     ((rq = PostGetAccessToken /\ token_outcome w = inr resp) \/
      (exists kb, rq = PostCreateKnowledgeBase kb /\
                  (create_outcome w kb = inr resp \/
                   list_outcome w kb = inr resp)))) /\
  (status < 200 \/ 299 < status).
Proof.
  intros H.
  assert (Hmain :
            status = 500 \/
            exists resp : response,
              is_success resp = false /\ status = status_code resp /\
              ((rq = PostGetAccessToken /\ token_outcome w = inr resp) \/
               (exists kb, rq = PostCreateKnowledgeBase kb /\
                           (create_outcome w kb = inr resp \/
                            list_outcome w kb = inr resp)))).
  { destruct rq as [|kb| |]; cbn [handle] in H.
    - destruct (key_missing cfg) eqn:Hk.
      + unfold get_access_token in H. rewrite Hk in H.
        injection H as <- _. left. reflexivity.
      + rewrite (get_access_token_run w Hk) in H.
        pose proof (token_try_status_only w) as Hs.
        destruct (get_access_token_try w) as [[e|v] w'];
          [|exfalso; exact (respond_value_not_error _ _ _ H)].
        cbn [fst] in Hs.
        destruct e; cbn in H; injection H as <- _;
          try (left; reflexivity).
        right. exists resp. destruct (Hs resp eq_refl) as [Ho Hns].
        split; [exact Hns|]. split; [reflexivity|]. left. split; [reflexivity|exact Ho].
    - destruct (key_missing cfg) eqn:Hk.
      + unfold create_knowledge_base in H. rewrite Hk in H.
        injection H as <- _. left. reflexivity.
      + rewrite (create_result kb w Hk) in H.
        destruct (find_or_create kb (create_outcome w kb) (list_outcome w kb))
          as [e|kb_id] eqn:Hfc.
        * destruct e; injection H as <- _; try (left; reflexivity).
          right. exists resp.
          destruct (find_or_create_status_only _ _ _ _ Hfc) as [Ho Hns].
          split; [exact Hns|]. split; [reflexivity|]. right.
          exists kb. split; [reflexivity|exact Ho].
        * destruct (truthy kb_id);
            [exfalso; exact (respond_value_not_error _ _ _ H)|].
          injection H as <- _. left. reflexivity.
    - rewrite get_default_config_run in H.
      exfalso. exact (respond_value_not_error _ _ _ H).
    - exfalso. exact (respond_value_not_error _ _ _ H). }
  split; [exact Hmain|].
  destruct Hmain as [->|(resp & Hns & -> & _)]; [right; lia|].
  unfold is_success in Hns. apply andb_false_iff in Hns.
  destruct Hns as [Hns|Hns]; [left|right]; lia.
Qed.

(** X3. The [HTTPException] of line 163 is raised inside the [try] and
    caught by the handler's own [except Exception] clause: the client never
    sees the detail "Failed to retrieve knowledge base ID" itself, but
    status 500 with [str] of that exception, and it sees this exactly when
    find-or-create ended without a truthy identifier. *)
Theorem no_identifier_error_is_rewrapped
        (rq : KnowledgeBaseRequest) (w : world) :
  respond (fst (create_knowledge_base rq w)) <>
    Error 500 (Literal "Failed to retrieve knowledge base ID") /\
  (respond (fst (create_knowledge_base rq w)) = Error 500 (StrOf NO_ID) <->
   key_missing cfg = false /\
   exists kb_id : pyval,
     find_or_create rq (create_outcome w rq) (list_outcome w rq) = inr kb_id /\
     truthy kb_id = false).
Proof.
  destruct (key_missing cfg) eqn:Hk.
  - unfold create_knowledge_base. rewrite Hk. cbn [fst respond raise].
    split; [discriminate|]. split; [discriminate|]. intros [H _]. discriminate.
  - rewrite (create_result rq w Hk).
    destruct (find_or_create rq (create_outcome w rq) (list_outcome w rq))
      as [e|kb_id] eqn:Hfc.
    + split; [destruct e; discriminate|]. split.
      * intros H. exfalso.
        assert (He : e = NO_ID) by (destruct e; congruence).
        apply (find_or_create_no_http_exception rq (create_outcome w rq)
                 (list_outcome w rq) 500
                 (Literal "Failed to retrieve knowledge base ID")).
        rewrite Hfc, He. reflexivity.
      * intros [_ (kb_id & Hc & _)]. discriminate.
    + destruct (truthy kb_id) eqn:Ht.
      * split; [apply respond_value_not_error|].
        split; [intros H; exfalso; exact (respond_value_not_error _ _ _ H)|].
        intros [_ (v & [= <-] & Hf)]. congruence.
      * split; [discriminate|]. split; [|reflexivity].
        intros _. split; [reflexivity|]. exists kb_id. split; [reflexivity|exact Ht].
Qed.

Lemma create_calls (kb : KnowledgeBaseRequest) (w : world) :
  key_missing cfg = false ->
  outbound (snd (create_knowledge_base kb w)) =
    (outbound w ++ (if needs_list w kb
                    then [create_request cfg kb; list_request cfg]
                    else [create_request cfg kb]))%list /\
  stdout (snd (create_knowledge_base kb w)) = stdout w.
Proof.
  intros Hk. rewrite (create_knowledge_base_run kb w Hk), create_try_run.
  cbv zeta. unfold needs_list, create_outcome. cbn [bind Monad_result].
  destruct (fetched (fst (remote (remote_state w) _))) as [e|data];
    [destruct e; split; reflexivity|].
  destruct (extract_id data) as [e|kb0]; [destruct e; split; reflexivity|].
  destruct (truthy kb0); cbn [negb]; [split; reflexivity|].
  destruct (fetched (fst (remote _ (list_request cfg)))) as [e|ldata].
  - destruct e; cbn [snd outbound stdout sent]; rewrite <- app_assoc;
      split; reflexivity.
  - destruct (scanned kb ldata) as [e|found].
    + destruct e; cbn [snd outbound stdout sent]; rewrite <- app_assoc;
        split; reflexivity.
    + destruct found as [v|]; [destruct (truthy v)|destruct (truthy kb0)];
        cbn [snd outbound stdout sent NO_ID]; rewrite <- app_assoc;
        split; reflexivity.
Qed.

Lemma token_calls (w : world) :
  key_missing cfg = false ->
  outbound (snd (get_access_token w)) =
    (outbound w ++ [token_request cfg])%list /\
  exists l : log_line, stdout (snd (get_access_token w)) = (stdout w ++ [l])%list.
Proof.
  intros Hk. rewrite (get_access_token_run w Hk), token_try_run. cbv zeta.
  destruct (data <- fetched _ ;; _) as [e|[token shown]].
  - destruct e; (split; [reflexivity|eexists; reflexivity]).
  - split; [reflexivity|eexists; reflexivity].
Qed.

(** X4. The remote calls of a handler: [get_default_config] and [root]
    issue none; [get_access_token] issues the token call once;
    [create_knowledge_base] issues the create call once, followed by the
    list call exactly when the create call gave a decodable 2xx response
    without a truthy identifier; no call is ever repeated, and without a
    credential none is issued.  Only [get_access_token] prints. *)
Theorem handler_calls (rq : http_request) (w : world) :
  outbound (snd (handle rq w)) = (outbound w ++ calls_of w rq)%list /\
  (rq <> PostGetAccessToken -> stdout (snd (handle rq w)) = stdout w).
Proof.
  destruct rq as [|kb| |]; cbn [handle calls_of].
  - split; [|congruence].
    destruct (key_missing cfg) eqn:Hk.
    + unfold get_access_token. rewrite Hk. cbn [snd raise].
      symmetry. apply app_nil_r.
    + apply (token_calls w Hk).
  - destruct (key_missing cfg) eqn:Hk.
    + unfold create_knowledge_base. rewrite Hk. cbn [snd raise].
      split; [symmetry; apply app_nil_r|reflexivity].
    + destruct (create_calls kb w Hk) as [Hout Hlog].
      split; [exact Hout|intros _; exact Hlog].
  - rewrite get_default_config_run. cbn [snd].
    split; [symmetry; apply app_nil_r|reflexivity].
  - cbn [snd root ret Monad_M].
    split; [symmetry; apply app_nil_r|reflexivity].
Qed.

Lemma startup_trace (w : world) :
  key_missing cfg = false ->
  outbound (snd (startup_event w)) =
    (outbound w ++ (if needs_list w DEFAULT_KB
                    then [create_request cfg DEFAULT_KB; list_request cfg]
                    else [create_request cfg DEFAULT_KB]))%list /\
  exists l : log_line,
    stdout (snd (startup_event w)) = (stdout w ++ [LogCreating; l])%list /\
    ((l = LogCreatedOrFound (default_kb_id (snd (startup_event w))) /\
      truthy (default_kb_id (snd (startup_event w))) = true) \/
     (l = LogNotFound /\
      truthy (default_kb_id (snd (startup_event w))) = false) \/
     (exists e : exn,
         l = LogStartupError e /\
         default_kb_id (snd (startup_event w)) = VNone)).
Proof.
  intros Hk. rewrite (startup_event_run w Hk), startup_try_run.
  cbv zeta. unfold needs_list, create_outcome. cbn [bind Monad_result].
  assert (Hraise : forall (e : exn) (w1 : world) (calls : list request),
             outbound w1 = (outbound w ++ calls)%list ->
             stdout w1 = (stdout w ++ [LogCreating])%list ->
             outbound (cached (logged w1 (LogStartupError e)) VNone) =
               (outbound w ++ calls)%list /\
             exists l : log_line,
               stdout (cached (logged w1 (LogStartupError e)) VNone) =
                 (stdout w ++ [LogCreating; l])%list /\
               ((l = LogCreatedOrFound
                       (default_kb_id
                          (cached (logged w1 (LogStartupError e)) VNone)) /\
                 truthy (default_kb_id
                           (cached (logged w1 (LogStartupError e)) VNone)) =
                   true) \/
                (l = LogNotFound /\
                 truthy (default_kb_id
                           (cached (logged w1 (LogStartupError e)) VNone)) =
                   false) \/
                (exists e' : exn,
                    l = LogStartupError e' /\
                    default_kb_id
                      (cached (logged w1 (LogStartupError e)) VNone) = VNone))).
  { intros e w1 calls Hout Hlog. cbn [outbound stdout cached logged
                                        default_kb_id].
    split; [exact Hout|]. exists (LogStartupError e).
    split; [rewrite Hlog, <- app_assoc; reflexivity|].
    right. right. exists e. split; reflexivity. }
  destruct (fetched (fst (remote (remote_state w) _))) as [e|data].
  { cbn [snd]. apply Hraise; reflexivity. }
  destruct (extract_id data) as [e|kb0].
  { cbn [snd]. apply Hraise; reflexivity. }
  destruct (truthy kb0) eqn:Hkb0; cbn [negb].
  { cbn [snd outbound stdout default_kb_id sent logged cached].
    split; [reflexivity|]. exists (LogCreatedOrFound kb0).
    split; [rewrite <- app_assoc; reflexivity|].
    left. split; [reflexivity|exact Hkb0]. }
  destruct (fetched (fst (remote _ (list_request cfg)))) as [e|ldata].
  { cbn [snd]. apply Hraise; cbn [outbound stdout sent cached logged];
      [rewrite <- app_assoc|]; reflexivity. }
  destruct (scanned DEFAULT_KB ldata) as [e|[v|]].
  { cbn [snd]. apply Hraise; cbn [outbound stdout sent cached logged];
      [rewrite <- app_assoc|]; reflexivity. }
  - destruct (truthy v) eqn:Hv;
      cbn [snd outbound stdout default_kb_id sent logged cached];
      (split; [rewrite <- app_assoc; reflexivity|]).
    + exists (LogCreatedOrFound v).
      split; [rewrite <- app_assoc; reflexivity|].
      left. split; [reflexivity|exact Hv].
    + exists LogNotFound. split; [rewrite <- app_assoc; reflexivity|].
      right. left. split; [reflexivity|exact Hv].
  - rewrite Hkb0.
    cbn [snd outbound stdout default_kb_id sent logged cached].
    split; [rewrite <- app_assoc; reflexivity|].
    exists LogNotFound. split; [rewrite <- app_assoc; reflexivity|].
    right. left. split; [reflexivity|exact Hkb0].
Qed.

(** X5. With a credential, the startup hook issues the create call once,
    followed by the list call exactly when the create call gave a decodable
    2xx response without a truthy identifier, and it prints two lines: the
    announcement and one line that tells the outcome, which agrees with
    the cache: the identifier when the cache is truthy, the warning when it
    is falsy, the exception when provisioning raised and the cache was reset
    to [None]. *)
Theorem startup_calls_and_log (w : world) :
  key_missing cfg = false ->
  outbound (snd (startup_event w)) =
    (outbound w ++ (if needs_list w DEFAULT_KB
                    then [create_request cfg DEFAULT_KB; list_request cfg]
                    else [create_request cfg DEFAULT_KB]))%list /\
  exists l : log_line,
    stdout (snd (startup_event w)) = (stdout w ++ [LogCreating; l])%list /\
    ((l = LogCreatedOrFound (default_kb_id (snd (startup_event w))) /\
      truthy (default_kb_id (snd (startup_event w))) = true) \/
     (l = LogNotFound /\
      truthy (default_kb_id (snd (startup_event w))) = false) \/
     (exists e : exn,
         l = LogStartupError e /\
         default_kb_id (snd (startup_event w)) = VNone)).
Proof. exact (startup_trace w). Qed.

Lemma string_prefix_is_prefix (n : nat) (s : string) :
  String.prefix (string_prefix n s) s = true.
Proof.
  revert s. induction n as [|n IH]; intros s; [destruct s; reflexivity|].
  destruct s as [|c s]; [reflexivity|]. cbn.
  destruct (Ascii.ascii_dec c c) as [_|Hc]; [apply IH|congruence].
Qed.

Lemma string_prefix_length (n : nat) (s : string) :
  (String.length (string_prefix n s) <= n)%nat.
Proof.
  revert s. induction n as [|n IH]; intros s; [destruct s; cbn; lia|].
  destruct s as [|c s]; cbn; [lia|]. specialize (IH s). lia.
Qed.

Lemma string_prefix_short (n : nat) (s : string) :
  (String.length s <= n)%nat -> string_prefix n s = s.
Proof.
  revert s. induction n as [|n IH]; intros s Hlen.
  - destruct s; [reflexivity|cbn in Hlen; lia].
  - destruct s as [|c s]; [reflexivity|]. cbn in *. rewrite IH; [reflexivity|lia].
Qed.

Lemma token_result (w : world) :
  key_missing cfg = false ->
  get_access_token w =
  let w1 := sent w (token_request cfg)
                 (snd (remote (remote_state w) (token_request cfg))) in
  match (data <- fetched (token_outcome w) ;;
         inner <- py_getitem data "data" ;;
         token <- py_getitem inner "token" ;;
         shown <- py_slice50 token ;;
         ret (token, shown)) with
  | inl (HTTPStatusError resp) =>
      (inl (HTTPException (status_code resp)
              (Literal "Failed to retrieve access token")),
       logged w1 (LogHTTPError resp))
  | inl e => (inl (HTTPException 500 (StrOf e)), logged w1 (LogException e))
  | inr (token, shown) =>
      (inr (VDict [("token", token)]), logged w1 (LogToken shown))
  end.
Proof.
  intros Hk. rewrite (get_access_token_run w Hk), token_try_run.
  cbv zeta. unfold token_outcome.
  destruct (data <- fetched _ ;; _) as [e|[token shown]]; [|reflexivity].
  destruct e; reflexivity.
Qed.

(** X6. When the token call gives a 2xx response with a string under
    [data.token], [get_access_token] returns that string whole and
    unmodified as [{"token": ...}], and the line it prints shows a prefix
    of the token of at most 50 characters (the whole token when it has at
    most 50). *)
Theorem token_returned_unmodified
        (w : world) (resp : response) (m d : list (string * pyval))
        (s : string) :
  key_missing cfg = false ->
  token_outcome w = inr resp ->
  is_success resp = true ->
  body resp = Some (VDict m) ->
  dict_lookup m "data" = Some (VDict d) ->
  dict_lookup d "token" = Some (VStr s) ->
  fst (get_access_token w) = inr (VDict [("token", VStr s)]) /\
  exists shown : string,
    stdout (snd (get_access_token w)) =
      (stdout w ++ [LogToken (VStr shown)])%list /\
    String.prefix shown s = true /\
    (String.length shown <= 50)%nat /\
    ((String.length s <= 50)%nat -> shown = s).
Proof.
  intros Hk Ho Hs Hb Hd Ht.
  assert (Hrun : get_access_token w =
                 (inr (VDict [("token", VStr s)]),
                  logged (sent w (token_request cfg)
                               (snd (remote (remote_state w)
                                            (token_request cfg))))
                         (LogToken (VStr (string_prefix 50 s))))).
  { rewrite (token_result w Hk). cbv zeta.
    rewrite Ho. unfold fetched. rewrite Hs, Hb. cbn [bind ret Monad_result].
    unfold py_getitem at 1. rewrite Hd. cbn [bind ret Monad_result].
    unfold py_getitem. rewrite Ht. reflexivity. }
  rewrite Hrun. cbn [fst snd stdout logged sent].
  split; [reflexivity|]. exists (string_prefix 50 s).
  split; [reflexivity|]. split; [apply string_prefix_is_prefix|].
  split; [apply string_prefix_length|apply string_prefix_short].
Qed.

(** X7. A 2xx answer to the token call still ends in status 500 when its
    body is an object without [data], when [data] is an object without
    [token], or when the token is [null], a boolean or a number: in the
    last case because the handler slices the token for its log line before
    returning it. *)
Theorem token_malformed_answer
        (w : world) (resp : response) (m : list (string * pyval)) :
  key_missing cfg = false ->
  token_outcome w = inr resp ->
  is_success resp = true ->
  body resp = Some (VDict m) ->
  (dict_lookup m "data" = None ->
   respond (fst (get_access_token w)) = Error 500 (StrOf (KeyError "data"))) /\
  (forall d : list (string * pyval),
      dict_lookup m "data" = Some (VDict d) ->
      dict_lookup d "token" = None ->
      respond (fst (get_access_token w)) = Error 500 (StrOf (KeyError "token"))) /\
  (forall (d : list (string * pyval)) (t : pyval),
      dict_lookup m "data" = Some (VDict d) ->
      dict_lookup d "token" = Some t ->
      is_scalar t = true ->
      respond (fst (get_access_token w)) = Error 500 (StrOf (TypeError t))).
Proof.
  intros Hk Ho Hs Hb.
  assert (Hrun : forall e : exn,
             (forall r, e <> HTTPStatusError r) ->
             (inner <- py_getitem (VDict m) "data" ;;
              token <- py_getitem inner "token" ;;
              shown <- py_slice50 token ;;
              ret (token, shown)) = inl e ->
             respond (fst (get_access_token w)) = Error 500 (StrOf e)).
  { intros e He Hraise. rewrite (token_result w Hk). cbv zeta.
    rewrite Ho. unfold fetched. rewrite Hs, Hb.
    cbn [bind ret Monad_result] in *. rewrite Hraise.
    destruct e; try reflexivity. exfalso. exact (He resp0 eq_refl). }
  split; [|split].
  - intros Hd. apply Hrun; [discriminate|].
    unfold py_getitem at 1. rewrite Hd. reflexivity.
  - intros d Hd Ht. apply Hrun; [discriminate|].
    unfold py_getitem at 1. rewrite Hd.
    cbn [bind ret Monad_result]. unfold py_getitem. rewrite Ht. reflexivity.
  - intros d t Hd Ht Hsc. apply Hrun; [discriminate|].
    unfold py_getitem at 1. rewrite Hd.
    cbn [bind ret Monad_result]. unfold py_getitem. rewrite Ht.
    cbn [bind ret Monad_result]. destruct t; try discriminate; reflexivity.
Qed.

(** ** Properties of the whole process *)




(** X9. A process started without credential never contacts the remote
    service: whatever requests it serves, the token and create handlers
    answer 500 with the credential-missing detail, [get_default_config]
    answers with [knowledge_id] [None], no outbound request is ever
    issued and the cache stays [None]. *)
Theorem process_without_credential (r0 : R) (rqs : list http_request) :
  key_missing cfg = true ->
  fst (run r0 rqs) = map answer_without_key rqs /\
  outbound (snd (run r0 rqs)) = [] /\
  remote_state (snd (run r0 rqs)) = r0 /\
  default_kb_id (snd (run r0 rqs)) = VNone.
Proof.
  intros Hk. unfold run, startup_event. rewrite Hk. cbn [snd print].
  assert (Hserve : forall w : world,
             outbound w = [] -> remote_state w = r0 ->
             default_kb_id w = VNone ->
             fst (serve rqs w) = map answer_without_key rqs /\
             outbound (snd (serve rqs w)) = [] /\
             remote_state (snd (serve rqs w)) = r0 /\
             default_kb_id (snd (serve rqs w)) = VNone).
  { induction rqs as [|rq rest IH]; intros w Hout Hst Hc.
    - cbn. repeat split; assumption.
    - cbn [serve map].
      assert (Hh : handle rq w =
                   (match answer_without_key rq with
                    | Ok200 v => inr v
                    | Error status d => inl (HTTPException status d)
                    | Unhandled e => inl e
                    end, w)).
      { destruct rq as [|kb| |]; cbn [handle answer_without_key].
        - unfold get_access_token. rewrite Hk. reflexivity.
        - unfold create_knowledge_base. rewrite Hk. reflexivity.
        - rewrite get_default_config_run, Hc. reflexivity.
        - reflexivity. }
      rewrite Hh. specialize (IH w Hout Hst Hc).
      destruct (serve rest w) as [rs w2]. cbn [fst snd] in *.
      destruct IH as (-> & IH).
      split; [|exact IH].
      f_equal. destruct rq; reflexivity. }
  apply Hserve; reflexivity.
Qed.

(** ** Edge cases of find-or-create *)

Lemma find_or_create_scanned
      (w : world) (rq : KnowledgeBaseRequest) (list_data : pyval) :
  create_without_id w rq ->
  fetched (list_outcome w rq) = inr list_data ->
  exists kb0 : pyval,
    truthy kb0 = false /\
    find_or_create rq (create_outcome w rq) (list_outcome w rq) =
    (found <- scanned rq list_data ;;
     ret (match found with Some v => v | None => kb0 end)).
Proof.
  intros (data & kb0 & Hc & He & Hf) Hl.
  exists kb0. split; [exact Hf|].
  unfold find_or_create. rewrite Hc. cbn [bind Monad_result].
  rewrite He. cbn [bind Monad_result]. rewrite Hf, Hl. reflexivity.
Qed.

Lemma create_fails_in_scan
      (w : world) (rq : KnowledgeBaseRequest) (list_data : pyval) (e : exn) :
  key_missing cfg = false ->
  create_without_id w rq ->
  fetched (list_outcome w rq) = inr list_data ->
  scanned rq list_data = inl e ->
  respond (fst (create_knowledge_base rq w)) = Error 500 (StrOf e) /\
  (rq = DEFAULT_KB -> default_kb_id (snd (startup_event w)) = VNone).
Proof.
  intros Hk Hc Hl Hs.
  destruct (find_or_create_scanned w rq list_data Hc Hl) as (kb0 & _ & Hfc).
  rewrite Hs in Hfc. cbn [bind Monad_result] in Hfc.
  split.
  - rewrite (create_result rq w Hk), Hfc.
    destruct (scanned_raises rq list_data e Hs) as [[obj ->]|[obj ->]];
      reflexivity.
  - intros ->. rewrite (startup_cache w Hk), Hfc. reflexivity.
Qed.

Lemma create_finds_nothing
      (w : world) (rq : KnowledgeBaseRequest) (list_data : pyval) :
  key_missing cfg = false ->
  create_without_id w rq ->
  fetched (list_outcome w rq) = inr list_data ->
  scanned rq list_data = inr None ->
  respond (fst (create_knowledge_base rq w)) = Error 500 (StrOf NO_ID).
Proof.
  intros Hk Hc Hl Hs.
  destruct (find_or_create_scanned w rq list_data Hc Hl) as (kb0 & Hf & Hfc).
  rewrite Hs in Hfc. cbn [bind ret Monad_result] in Hfc.
  rewrite (create_result rq w Hk), Hfc, Hf. reflexivity.
Qed.

Lemma scan_bad_entry (rq : KnowledgeBaseRequest) (before after : list pyval)
      (bad : pyval) :
  forallb is_dict before = true ->
  existsb (entry_matches rq) before = false ->
  is_dict bad = false ->
  scan rq (before ++ bad :: after) = inl (AttributeError bad "get").
Proof.
  intros Hd Hn Hbad.
  induction before as [|x before IH]; simpl app; simpl scan.
  - destruct bad; try discriminate; reflexivity.
  - simpl in Hd, Hn.
    apply andb_true_iff in Hd as [Hx Hd].
    apply orb_false_iff in Hn as [Hnx Hn].
    rewrite (kb_matches_dict rq x Hx), Hnx; cbn.
    apply IH; assumption.
Qed.

Lemma py_eq_str_field (m : list (string * pyval)) (k s : string) :
  py_eq_str (field (VDict m) k) s = true <-> dict_lookup m k = Some (VStr s).
Proof.
  unfold field. destruct (dict_lookup m k) as [v|]; cbn.
  - destruct v; cbn; try (split; [discriminate|intros [= ]]).
    rewrite String.eqb_eq. split; [intros ->; reflexivity|intros [= ->]; reflexivity].
  - split; discriminate.
Qed.

(** X10. In the fallback, an entry of the list that is not an object makes
    the scan raise as soon as the loop reaches it, that is, when no object
    before it matches: [create_knowledge_base] fails with status 500 and
    the startup hook caches [None], even if a matching entry with an
    identifier follows. *)
Theorem scan_fails_on_malformed_entry
        (w : world) (rq : KnowledgeBaseRequest)
        (before after : list pyval) (bad : pyval) :
  key_missing cfg = false ->
  create_without_id w rq ->
  listed w rq (before ++ bad :: after) ->
  forallb is_dict before = true ->
  existsb (entry_matches rq) before = false ->
  is_dict bad = false ->
  respond (fst (create_knowledge_base rq w)) =
    Error 500 (StrOf (AttributeError bad "get")) /\
  (rq = DEFAULT_KB -> default_kb_id (snd (startup_event w)) = VNone).
Proof.
  intros Hk Hc (list_data & Hl & Hx) Hd Hn Hbad.
  apply (create_fails_in_scan w rq list_data _ Hk Hc Hl).
  unfold scanned. rewrite Hx. cbn [bind Monad_result py_iter].
  apply scan_bad_entry; assumption.
Qed.

(** X11. The default [{}] of [data.get("data", {})] only covers a missing
    key.  When the create call gives a 2xx response whose body is not an
    object, or whose [data] field is present but not an object (for
    instance [null]), the extraction raises: [create_knowledge_base] fails
    with status 500 after that single call, without trying the list, and
    the startup hook caches [None]. *)
Theorem create_envelope_not_object
        (w : world) (rq : KnowledgeBaseRequest) (resp : response)
        (data : pyval) :
  key_missing cfg = false ->
  create_outcome w rq = inr resp ->
  is_success resp = true ->
  body resp = Some data ->
  (is_dict data = false \/
   exists (m : list (string * pyval)) (v : pyval),
     data = VDict m /\ dict_lookup m "data" = Some v /\ is_dict v = false) ->
  exists obj : pyval,
    respond (fst (create_knowledge_base rq w)) =
      Error 500 (StrOf (AttributeError obj "get")) /\
    outbound (snd (create_knowledge_base rq w)) =
      (outbound w ++ [create_request cfg rq])%list /\
    (rq = DEFAULT_KB -> default_kb_id (snd (startup_event w)) = VNone).
Proof.
  intros Hk Ho Hs Hb Hbad.
  assert (Hf : fetched (create_outcome w rq) = inr data).
  { rewrite Ho. unfold fetched. rewrite Hs, Hb. reflexivity. }
  assert (Hex : exists obj, extract_id data = inl (AttributeError obj "get")).
  { destruct Hbad as [Hnd|(m & v & -> & Hd & Hv)].
    - exists data. destruct data; try discriminate; reflexivity.
    - exists v. unfold extract_id, py_get at 1. rewrite Hd.
      cbn [bind Monad_result]. destruct v; try discriminate; reflexivity. }
  destruct Hex as [obj Hex]. exists obj.
  assert (Hfc : find_or_create rq (create_outcome w rq) (list_outcome w rq) =
                inl (AttributeError obj "get")).
  { unfold find_or_create. rewrite Hf. cbn [bind Monad_result].
    rewrite Hex. reflexivity. }
  split; [rewrite (create_result rq w Hk), Hfc; reflexivity|].
  split.
  - destruct (create_calls rq w Hk) as [Hout _]. rewrite Hout.
    unfold needs_list. rewrite Hf. cbn [bind Monad_result]. rewrite Hex.
    reflexivity.
  - intros ->. rewrite (startup_cache w Hk), Hfc. reflexivity.
Qed.

(** X12. What the startup hook caches after the fallback, when the listed
    entries are objects: the [id] field of the first matching entry,
    whatever it is, or, when no entry matches, the falsy value extracted
    from the create response, which need not be [None] (an empty string
    stays an empty string). *)
Theorem startup_fallback_cache
        (w : world) (data kb0 : pyval) (items : list pyval) :
  key_missing cfg = false ->
  fetched (create_outcome w DEFAULT_KB) = inr data ->
  extract_id data = inr kb0 ->
  truthy kb0 = false ->
  listed w DEFAULT_KB items ->
  forallb is_dict items = true ->
  default_kb_id (snd (startup_event w)) =
  match find (entry_matches DEFAULT_KB) items with
  | Some kb => entry_id kb
  | None => kb0
  end.
Proof.
  intros Hk Hc He Hf (list_data & Hl & Hx) Hitems.
  rewrite (startup_cache w Hk). unfold find_or_create, scanned.
  rewrite Hc. cbn [bind Monad_result]. rewrite He. cbn [bind Monad_result].
  rewrite Hf, Hl. cbn [bind Monad_result]. rewrite Hx.
  cbn [bind Monad_result py_iter]. rewrite (scan_find DEFAULT_KB items Hitems).
  cbn [bind ret Monad_result].
  destruct (find (entry_matches DEFAULT_KB) items); reflexivity.
Qed.

(** X13. The test of the scan loop on an object never raises, and it holds
    exactly when the object binds [name], [opening] and [prompt] to strings
    equal to the three fields of the descriptor; a field of another type
    never matches, and other fields of the object are ignored. *)
Theorem kb_matches_exact (rq : KnowledgeBaseRequest) (m : list (string * pyval)) :
  (exists b : bool, kb_matches rq (VDict m) = inr b) /\
  (kb_matches rq (VDict m) = inr true <->
   dict_lookup m "name" = Some (VStr (name rq)) /\
   dict_lookup m "opening" = Some (VStr (opening rq)) /\
   dict_lookup m "prompt" = Some (VStr (prompt rq))).
Proof.
  rewrite (kb_matches_dict rq (VDict m) eq_refl).
  split; [eexists; reflexivity|].
  unfold entry_matches.
  rewrite <- !py_eq_str_field.
  split.
  - intros [= H]. apply andb_true_iff in H as [H H3].
    apply andb_true_iff in H as [H1 H2]. repeat split; assumption.
  - intros (H1 & H2 & H3). rewrite H1, H2, H3. reflexivity.
Qed.

(** X14. In the fallback, a list response without entries to visit is
    treated as "no match": when the body has no [data] key, or [data] has
    no [list] key, or [data.list] is an empty list, string or object,
    [create_knowledge_base] fails with status 500 for lack of an
    identifier. *)
Theorem list_without_entries
        (w : world) (rq : KnowledgeBaseRequest) (m : list (string * pyval)) :
  key_missing cfg = false ->
  create_without_id w rq ->
  fetched (list_outcome w rq) = inr (VDict m) ->
  (dict_lookup m "data" = None \/
   exists d : list (string * pyval),
     dict_lookup m "data" = Some (VDict d) /\
     (dict_lookup d "list" = None \/
      dict_lookup d "list" = Some (VList []) \/
      dict_lookup d "list" = Some (VStr "") \/
      dict_lookup d "list" = Some (VDict []))) ->
  respond (fst (create_knowledge_base rq w)) = Error 500 (StrOf NO_ID).
Proof.
  intros Hk Hc Hl Hempty.
  apply (create_finds_nothing w rq (VDict m) Hk Hc Hl).
  unfold scanned, extract_list, py_get at 1.
  destruct Hempty as [Hd|(d & Hd & Hlist)]; rewrite Hd; cbn [bind Monad_result].
  - reflexivity.
  - unfold py_get.
    destruct Hlist as [H|[H|[H|H]]]; rewrite H; reflexivity.
Qed.

(** X15. In the fallback, when [data.list] of the list response is not a
    list: [null], a boolean or a number is not iterable, and a non-empty
    string or object is iterated over its characters or keys, which have
    no [get]; in each case [create_knowledge_base] fails with status 500
    and the startup hook caches [None]. *)
Theorem list_field_not_a_list
        (w : world) (rq : KnowledgeBaseRequest)
        (m d : list (string * pyval)) (v : pyval) :
  key_missing cfg = false ->
  create_without_id w rq ->
  fetched (list_outcome w rq) = inr (VDict m) ->
  dict_lookup m "data" = Some (VDict d) ->
  dict_lookup d "list" = Some v ->
  (is_scalar v = true ->
   respond (fst (create_knowledge_base rq w)) = Error 500 (StrOf (TypeError v)) /\
   (rq = DEFAULT_KB -> default_kb_id (snd (startup_event w)) = VNone)) /\
  (forall (c : ascii) (s : string),
      v = VStr (String c s) ->
      respond (fst (create_knowledge_base rq w)) =
        Error 500 (StrOf (AttributeError (VStr (String c "")) "get")) /\
      (rq = DEFAULT_KB -> default_kb_id (snd (startup_event w)) = VNone)) /\
  (forall (k : string) (x : pyval) (rest : list (string * pyval)),
      v = VDict ((k, x) :: rest) ->
      respond (fst (create_knowledge_base rq w)) =
        Error 500 (StrOf (AttributeError (VStr k) "get")) /\
      (rq = DEFAULT_KB -> default_kb_id (snd (startup_event w)) = VNone)).
Proof.
  intros Hk Hc Hl Hd Hv.
  assert (Hscan : scanned rq (VDict m) =
                  (items <- py_iter v ;; scan rq items)).
  { unfold scanned, extract_list, py_get at 1. rewrite Hd.
    cbn [bind Monad_result]. unfold py_get. rewrite Hv. reflexivity. }
  split; [|split].
  - intros Hsc. apply (create_fails_in_scan w rq (VDict m) _ Hk Hc Hl).
    rewrite Hscan. destruct v; try discriminate; reflexivity.
  - intros c s ->. apply (create_fails_in_scan w rq (VDict m) _ Hk Hc Hl).
    rewrite Hscan. reflexivity.
  - intros k x rest ->. apply (create_fails_in_scan w rq (VDict m) _ Hk Hc Hl).
    rewrite Hscan. reflexivity.
Qed.

Lemma prefix_append (a b : string) : String.prefix a (a ++ b) = true.
Proof.
  induction a as [|c a IH]; cbn; [destruct b; reflexivity|].
  destruct (Ascii.ascii_dec c c) as [_|Hc]; [exact IH|congruence].
Qed.

Lemma builders_authenticated (kb : KnowledgeBaseRequest) :
  key_missing cfg = false ->
  authenticated (create_request cfg kb) /\
  authenticated (list_request cfg) /\
  authenticated (token_request cfg).
Proof.
  unfold key_missing, authenticated, api_key.
  destruct (HEYGEN_API_KEY cfg) as [k|] eqn:Hkey; [|discriminate].
  intros Hk.
  assert (Hne : k <> "").
  { intros ->. discriminate. }
  repeat split; exists k; cbn [headers url create_request list_request
                                 token_request];
    (split; [reflexivity|]); (split; [exact Hne|]);
    (split; [|apply prefix_append]);
    unfold api_key; rewrite Hkey; cbn [In]; auto 6.
Qed.

(** X16. Every request the handlers and the startup hook send to the
    remote service carries the configured, non-empty API key in its
    [x-api-key] header and goes to a URL under the configured base URL; in
    particular nothing is ever sent without a key. *)
Theorem outbound_requests_authenticated (rq : http_request) (w : world) :
  (exists new : list request,
      outbound (snd (handle rq w)) = (outbound w ++ new)%list /\
      Forall authenticated new) /\
  (exists new : list request,
      outbound (snd (startup_event w)) = (outbound w ++ new)%list /\
      Forall authenticated new).
Proof.
  destruct (key_missing cfg) eqn:Hk.
  - split; exists []; (split; [|constructor]); rewrite app_nil_r.
    + destruct rq as [|kb| |]; cbn [handle].
      * unfold get_access_token. rewrite Hk. reflexivity.
      * unfold create_knowledge_base. rewrite Hk. reflexivity.
      * rewrite get_default_config_run. reflexivity.
      * reflexivity.
    + unfold startup_event. rewrite Hk. reflexivity.
  - split.
    + destruct rq as [|kb| |]; cbn [handle].
      * destruct (token_calls w Hk) as [Hout _].
        exists [token_request cfg]. split; [exact Hout|].
        repeat constructor. apply (builders_authenticated DEFAULT_KB Hk).
      * destruct (create_calls kb w Hk) as [Hout _].
        eexists. split; [exact Hout|].
        destruct (builders_authenticated kb Hk) as (Hc & Hl & _).
        destruct (needs_list w kb); repeat constructor; assumption.
      * exists []. split; [|constructor].
        rewrite get_default_config_run, app_nil_r. reflexivity.
      * exists []. split; [|constructor]. rewrite app_nil_r. reflexivity.
    + destruct (startup_trace w Hk) as [Hout _].
      eexists. split; [exact Hout|].
      destruct (builders_authenticated DEFAULT_KB Hk) as (Hc & Hl & _).
      destruct (needs_list w DEFAULT_KB); repeat constructor; assumption.
Qed.

(** X17. The shape of a returned value: when [create_knowledge_base]
    returns, the value is [{"knowledge_base_id": id}] with a truthy [id]
    (never [null] or an empty string), and when [get_access_token] returns,
    the value is [{"token": t}] where [t] is a string or a list, the two
    kinds of JSON value that can be sliced. *)
Theorem successful_answers (w : world) :
  (forall (kb : KnowledgeBaseRequest) (v : pyval),
      fst (create_knowledge_base kb w) = inr v ->
      exists id : pyval,
        v = VDict [("knowledge_base_id", id)] /\ truthy id = true) /\
  (forall v : pyval,
      fst (get_access_token w) = inr v ->
      exists t : pyval,
        v = VDict [("token", t)] /\
        ((exists s, t = VStr s) \/ (exists l, t = VList l))).
Proof.
  destruct (key_missing cfg) eqn:Hk.
  - unfold create_knowledge_base, get_access_token. rewrite Hk.
    split; intros; discriminate.
  - split.
    + intros kb v. rewrite (create_fst kb w Hk). unfold create_answer.
      destruct (find_or_create kb (create_outcome w kb) (list_outcome w kb))
        as [e|id]; [destruct e; discriminate|].
      destruct (truthy id) eqn:Ht; [|discriminate].
      intros [= <-]. exists id. split; [reflexivity|exact Ht].
    + intros v. rewrite (token_result w Hk). cbv zeta.
      cbn [bind ret Monad_result].
      destruct (fetched (token_outcome w)) as [e|data];
        [destruct e; discriminate|].
      destruct (py_getitem data "data") as [e|inner];
        [destruct e; discriminate|].
      destruct (py_getitem inner "token") as [e|t];
        [destruct e; discriminate|].
      destruct (py_slice50 t) as [e|shown] eqn:Hsl;
        [destruct e; discriminate|].
      intros [= <-]. exists t. split; [reflexivity|].
      destruct t; try discriminate; [left|right]; eexists; reflexivity.
Qed.

End Backend.

(** ** The claims on concrete runs *)

Lemma credential_absent_no_remote_call_witness :
  HEYGEN_API_KEY WITHOUT_KEY = None /\
  respond (fst (get_access_token (list outcome) scripted WITHOUT_KEY
                  (initial_world _ [CREATED_KB_123]))) =
    Error 500 (Literal "API key is missing from environment") /\
  outbound _ (snd (create_knowledge_base (list outcome) scripted WITHOUT_KEY
                     DEFAULT_KB (initial_world _ [CREATED_KB_123]))) = [].
Proof.
  split; [reflexivity|].
  destruct (credential_absent_no_remote_call (list outcome) scripted
              WITHOUT_KEY (initial_world _ [CREATED_KB_123]) DEFAULT_KB
              (or_introl eq_refl))
    as (_ & _ & _ & Hout & Hresp & _).
  split; [exact Hresp|exact Hout].
Defined.

Lemma identifier_extraction_order_witness :
  respond (fst (create_knowledge_base (list outcome) scripted WITH_KEY
                  DEFAULT_KB (initial_world _ [CREATED_KB_123]))) =
    Ok200 (VDict [("knowledge_base_id", VStr "kb_123")]) /\
  default_kb_id _ (snd (startup_event (list outcome) scripted WITH_KEY
                          (initial_world _ [CREATED_KB_123]))) = VStr "kb_123".
Proof.
  destruct (identifier_extraction_order (list outcome) scripted WITH_KEY
              (initial_world _ [CREATED_KB_123]) DEFAULT_KB
              {| status_code := 200;
                 body := Some (VDict [("data", VDict [("id", VStr "kb_123")])]) |}
              [] [("data", VDict [("id", VStr "kb_123")])]
              [("id", VStr "kb_123")]
              eq_refl eq_refl eq_refl eq_refl eq_refl eq_refl)
    as [Hcreate Hstartup].
  split; [rewrite Hcreate; reflexivity|exact (Hstartup eq_refl)].
Defined.

(** C6 as stated fails when the remote service returns an identifier that
    is not a string: the startup hook caches the number 7 and
    [get_default_config] serves it as [knowledge_id]. *)
Lemma get_default_config_as_stated_fails :
  default_kb_id _ (snd (startup_event (list outcome) scripted WITH_KEY
                          (initial_world _ [CREATED_KB_7]))) = VInt 7 /\
  fst (get_default_config (list outcome)
         (snd (startup_event (list outcome) scripted WITH_KEY
                 (initial_world _ [CREATED_KB_7])))) =
    inr (VDict (STATIC_CONFIG ++ [("knowledge_id", VInt 7)])) /\
  ~ config_as_stated (list outcome)
      (snd (startup_event (list outcome) scripted WITH_KEY
              (initial_world _ [CREATED_KB_7]))).
Proof.
  split; [reflexivity|]. split; [reflexivity|].
  intros (c & Hc & Hid).
  change (fst (get_default_config (list outcome)
                 (snd (startup_event (list outcome) scripted WITH_KEY
                         (initial_world _ [CREATED_KB_7])))))
    with (@inr exn pyval
            (VDict (STATIC_CONFIG ++ [("knowledge_id", VInt 7)]))) in Hc.
  injection Hc as <-.
  destruct Hid as [Hid|(s & _ & Hid)]; vm_compute in Hid; discriminate.
Qed.

Lemma remote_failures_mapped_witness :
  respond (fst (get_access_token (list outcome) scripted WITH_KEY
                  (initial_world _ [UNAUTHORIZED]))) =
    Error 401 (Literal "Failed to retrieve access token").
Proof.
  destruct (remote_failures_mapped (list outcome) scripted WITH_KEY
              (initial_world _ [UNAUTHORIZED]) DEFAULT_KB eq_refl)
    as (Htoken & _).
  exact (Htoken {| status_code := 401; body := None |} eq_refl eq_refl).
Defined.

(** The fallback situation on the scripted service:
    [{"data": {}}] from the create call, then a listing. *)
Lemma scripted_fallback (entries : list pyval) :
  create_without_id (list outcome) scripted WITH_KEY
    (initial_world _ [CREATED_NO_ID; listing entries]) DEFAULT_KB /\
  listed (list outcome) scripted WITH_KEY
    (initial_world _ [CREATED_NO_ID; listing entries]) DEFAULT_KB entries.
Proof.
  split.
  - exists (VDict [("data", VDict [])]), VNone. repeat split.
  - exists (VDict [("data", VDict [("list", VList entries)])]). split; reflexivity.
Qed.


Lemma create_fallback_scan_witness :
  fst (create_knowledge_base (list outcome) scripted WITH_KEY DEFAULT_KB
         (initial_world _ [CREATED_NO_ID; listing LIST_KB_999_THEN_JUNK])) =
    inr (VDict [("knowledge_base_id", VStr "kb_999")]) /\
  respond (fst (create_knowledge_base (list outcome) scripted WITH_KEY
                  DEFAULT_KB
                  (initial_world _ [CREATED_NO_ID;
                                    listing LIST_KB_999_THEN_JUNK]))) =
    Ok200 (VDict [("knowledge_base_id", VStr "kb_999")]).
Proof.
  destruct (scripted_fallback LIST_KB_999_THEN_JUNK) as [Hc Hl].
  destruct (create_fallback_scan (list outcome) scripted WITH_KEY
              (initial_world _ [CREATED_NO_ID; listing LIST_KB_999_THEN_JUNK])
              DEFAULT_KB LIST_KB_999_THEN_JUNK eq_refl Hc Hl)
    as (_ & Hmatch & _).
  destruct (Hmatch
              [VDict [("id", VStr "kb_1"); ("name", VStr "Other");
                      ("opening", VStr "hi"); ("prompt", VStr "p")]]
              [VStr "oops"]
              (default_entry [("id", VStr "kb_999")])
              eq_refl eq_refl eq_refl eq_refl)
    as [Hreturn Hanswer].
  split; [exact Hreturn|exact (Hanswer eq_refl eq_refl)].
Defined.

(** C1 as stated fails where the first matching entry has no [id]: an
    entry matches, yet the answer is status 500, not an identifier. *)
Lemma create_fallback_as_stated_fails :
  create_without_id (list outcome) scripted WITH_KEY
    (initial_world _ [CREATED_NO_ID; listing LIST_FIRST_WITHOUT_ID])
    DEFAULT_KB /\
  listed (list outcome) scripted WITH_KEY
    (initial_world _ [CREATED_NO_ID; listing LIST_FIRST_WITHOUT_ID])
    DEFAULT_KB LIST_FIRST_WITHOUT_ID /\
  find (entry_matches DEFAULT_KB) LIST_FIRST_WITHOUT_ID =
    Some (default_entry [("knowledge_base_id", VStr "kb_1")]) /\
  respond (fst (create_knowledge_base (list outcome) scripted WITH_KEY
                  DEFAULT_KB
                  (initial_world _ [CREATED_NO_ID;
                                    listing LIST_FIRST_WITHOUT_ID]))) =
    Error 500 (StrOf NO_ID) /\
  ~ fallback_as_stated (list outcome) scripted WITH_KEY
      (initial_world _ [CREATED_NO_ID; listing LIST_FIRST_WITHOUT_ID])
      DEFAULT_KB LIST_FIRST_WITHOUT_ID.
Proof.
  destruct (scripted_fallback LIST_FIRST_WITHOUT_ID) as [Hc Hl].
  split; [exact Hc|]. split; [exact Hl|]. split; [reflexivity|].
  split; [reflexivity|].
  unfold fallback_as_stated.
  change (find (entry_matches DEFAULT_KB) LIST_FIRST_WITHOUT_ID)
    with (Some (default_entry [("knowledge_base_id", VStr "kb_1")])).
  cbv beta iota.
  change (respond (fst (create_knowledge_base (list outcome) scripted WITH_KEY
                          DEFAULT_KB
                          (initial_world _ [CREATED_NO_ID;
                                            listing LIST_FIRST_WITHOUT_ID]))))
    with (Error 500 (StrOf NO_ID)).
  discriminate.
Qed.

(** The find-or-create store meets both assumptions of C3. *)
Lemma store_listing_consistent : listing_consistent (list pyval) store WITH_KEY.
Proof. intros entries. reflexivity. Qed.

Lemma store_create_idempotent :
  create_idempotent (list pyval) store WITH_KEY DEFAULT_KB.
Proof.
  intros entries. unfold store.
  cbn [meth json_payload create_request snd].
  set (p := kb_json DEFAULT_KB).
  destruct (existsb (same_triple p) entries) eqn:Hin.
  - rewrite Hin. reflexivity.
  - rewrite existsb_app, Hin. reflexivity.
Qed.

(** On the store, whose create call never tells an identifier, both calls
    find it by the scan. *)
Lemma create_twice_on_store :
  respond (fst (create_knowledge_base (list pyval) store WITH_KEY DEFAULT_KB
                  (snd (create_knowledge_base (list pyval) store WITH_KEY
                          DEFAULT_KB (initial_world _ []))))) =
    Ok200 (VDict [("knowledge_base_id", VStr "kb_Office Query Solver")]).
Proof.
  destruct (create_twice_replayed (list pyval) store WITH_KEY
              (initial_world _ []) DEFAULT_KB
              store_listing_consistent store_create_idempotent)
    as [_ Hsame].
  apply Hsame. reflexivity.
Qed.



(** Listing consistency alone is not enough: against a service whose create
    call makes a new resource each time and returns its identifier, the
    second call answers with another identifier, because the handler always
    creates first and only scans when the create response has no
    identifier. *)
Lemma create_twice_on_fresh_service :
  listing_consistent nat fresh WITH_KEY /\
  respond (fst (create_knowledge_base nat fresh WITH_KEY DEFAULT_KB
                  (initial_world _ O))) =
    Ok200 (VDict [("knowledge_base_id", VStr "kb")]) /\
  respond (fst (create_knowledge_base nat fresh WITH_KEY DEFAULT_KB
                  (snd (create_knowledge_base nat fresh WITH_KEY DEFAULT_KB
                          (initial_world _ O))))) =
    Ok200 (VDict [("knowledge_base_id", VStr "kb'")]).
Proof.
  split; [intros n; reflexivity|]. split; reflexivity.
Qed.

(** Startup against a service that answers 503: the hook returns, the
    failure is printed, and the cache is [None]. *)
Lemma startup_on_unavailable_service :
  startup_event (list outcome) scripted WITH_KEY
    (initial_world _ [inr {| status_code := 503; body := None |}]) =
  (inr tt,
   {| remote_state := [];
      outbound := [create_request WITH_KEY DEFAULT_KB];
      stdout := [LogCreating;
                 LogStartupError
                   (HTTPStatusError {| status_code := 503; body := None |})];
      default_kb_id := VNone |}).
Proof. reflexivity. Qed.

(** A whole process: startup caches [kb_123], and the three handlers are
    then served on that state. *)
Lemma run_sample_process :
  fst (run (list outcome) scripted WITH_KEY
         [CREATED_KB_123; UNAUTHORIZED; CREATED_NO_ID; listing LIST_KB_999]
         [PostGetAccessToken; PostCreateKnowledgeBase DEFAULT_KB;
          GetDefaultConfig]) =
  [Error 401 (Literal "Failed to retrieve access token");
   Ok200 (VDict [("knowledge_base_id", VStr "kb_999")]);
   Ok200 (VDict (STATIC_CONFIG ++ [("knowledge_id", VStr "kb_123")]))].
Proof. reflexivity. Qed.

(** The token handler on a well-formed answer, and on an answer without
    the [data] envelope. *)
Lemma token_sample_success :
  respond (fst (get_access_token (list outcome) scripted WITH_KEY
                  (initial_world _
                     [ok_json (VDict [("data", VDict [("token", VStr "tok")])])]))) =
  Ok200 (VDict [("token", VStr "tok")]).
Proof. reflexivity. Qed.

Lemma token_sample_malformed :
  respond (fst (get_access_token (list outcome) scripted WITH_KEY
                  (initial_world _ [ok_json (VDict [])]))) =
  Error 500 (StrOf (KeyError "data")).
Proof. reflexivity. Qed.

(** ** The further properties on concrete runs *)

Lemma error_status_is_500_or_remote_witness :
  respond (fst (handle (list outcome) scripted WITH_KEY PostGetAccessToken
                  (initial_world _ [UNAUTHORIZED]))) =
    Error 401 (Literal "Failed to retrieve access token") /\
  (401 < 200 \/ 299 < 401).
Proof.
  split; [reflexivity|].
  exact (proj2 (error_status_is_500_or_remote (list outcome) scripted WITH_KEY
                  PostGetAccessToken (initial_world _ [UNAUTHORIZED])
                  401 (Literal "Failed to retrieve access token") eq_refl)).
Defined.

Lemma startup_calls_and_log_witness :
  outbound _ (snd (startup_event (list outcome) scripted WITH_KEY
                     (initial_world _ [CREATED_NO_ID; listing LIST_KB_999]))) =
    [create_request WITH_KEY DEFAULT_KB; list_request WITH_KEY] /\
  stdout _ (snd (startup_event (list outcome) scripted WITH_KEY
                   (initial_world _ [CREATED_NO_ID; listing LIST_KB_999]))) =
    [LogCreating; LogCreatedOrFound (VStr "kb_999")].
Proof.
  destruct (startup_calls_and_log (list outcome) scripted WITH_KEY
              (initial_world _ [CREATED_NO_ID; listing LIST_KB_999]) eq_refl)
    as [Hout _].
  split; [exact Hout|reflexivity].
Defined.

Lemma token_returned_unmodified_witness :
  fst (get_access_token (list outcome) scripted WITH_KEY
         (initial_world _ [TOKEN_OK])) =
  inr (VDict [("token", VStr "tok")]).
Proof.
  exact (proj1 (token_returned_unmodified (list outcome) scripted WITH_KEY
                  (initial_world _ [TOKEN_OK])
                  {| status_code := 200;
                     body := Some (VDict [("data",
                                           VDict [("token", VStr "tok")])]) |}
                  [("data", VDict [("token", VStr "tok")])]
                  [("token", VStr "tok")] "tok"
                  eq_refl eq_refl eq_refl eq_refl eq_refl eq_refl)).
Defined.

Lemma token_malformed_answer_witness :
  respond (fst (get_access_token (list outcome) scripted WITH_KEY
                  (initial_world _
                     [ok_json (VDict [("data", VDict [("token", VInt 7)])])]))) =
  Error 500 (StrOf (TypeError (VInt 7))).
Proof.
  destruct (token_malformed_answer (list outcome) scripted WITH_KEY
              (initial_world _
                 [ok_json (VDict [("data", VDict [("token", VInt 7)])])])
              {| status_code := 200;
                 body := Some (VDict [("data", VDict [("token", VInt 7)])]) |}
              [("data", VDict [("token", VInt 7)])]
              eq_refl eq_refl eq_refl eq_refl)
    as (_ & _ & Hscalar).
  exact (Hscalar [("token", VInt 7)] (VInt 7) eq_refl eq_refl eq_refl).
Defined.

Lemma process_without_credential_witness :
  fst (run (list outcome) scripted WITHOUT_KEY [CREATED_KB_123]
         [PostGetAccessToken; PostCreateKnowledgeBase DEFAULT_KB;
          GetDefaultConfig]) =
    [Error 500 (Literal "API key is missing from environment");
     Error 500 (Literal "API key is missing from environment");
     Ok200 (VDict (STATIC_CONFIG ++ [("knowledge_id", VNone)]))] /\
  outbound _ (snd (run (list outcome) scripted WITHOUT_KEY [CREATED_KB_123]
                     [PostGetAccessToken; PostCreateKnowledgeBase DEFAULT_KB;
                      GetDefaultConfig])) = [].
Proof.
  destruct (process_without_credential (list outcome) scripted WITHOUT_KEY
              [CREATED_KB_123]
              [PostGetAccessToken; PostCreateKnowledgeBase DEFAULT_KB;
               GetDefaultConfig] eq_refl)
    as (Hresp & Hout & _).
  split; [exact Hresp|exact Hout].
Defined.

Lemma scan_fails_on_malformed_entry_witness :
  respond (fst (create_knowledge_base (list outcome) scripted WITH_KEY
                  DEFAULT_KB
                  (initial_world _ [CREATED_NO_ID; listing LIST_MALFORMED]))) =
    Error 500 (StrOf (AttributeError (VStr "oops") "get")) /\
  default_kb_id _ (snd (startup_event (list outcome) scripted WITH_KEY
                          (initial_world _ [CREATED_NO_ID;
                                            listing LIST_MALFORMED]))) = VNone.
Proof.
  destruct (scripted_fallback LIST_MALFORMED) as [Hc Hl].
  destruct (scan_fails_on_malformed_entry (list outcome) scripted WITH_KEY
              (initial_world _ [CREATED_NO_ID; listing LIST_MALFORMED])
              DEFAULT_KB [] [default_entry [("id", VStr "kb_2")]]
              (VStr "oops") eq_refl Hc Hl eq_refl eq_refl eq_refl)
    as [Hcreate Hstartup].
  split; [exact Hcreate|exact (Hstartup eq_refl)].
Defined.

Lemma create_envelope_not_object_witness :
  respond (fst (create_knowledge_base (list outcome) scripted WITH_KEY
                  DEFAULT_KB
                  (initial_world _ [CREATED_NULL_DATA; listing LIST_KB_999]))) =
    Error 500 (StrOf (AttributeError VNone "get")) /\
  outbound _ (snd (create_knowledge_base (list outcome) scripted WITH_KEY
                     DEFAULT_KB
                     (initial_world _ [CREATED_NULL_DATA;
                                       listing LIST_KB_999]))) =
    [create_request WITH_KEY DEFAULT_KB].
Proof.
  destruct (create_envelope_not_object (list outcome) scripted WITH_KEY
              (initial_world _ [CREATED_NULL_DATA; listing LIST_KB_999])
              DEFAULT_KB
              {| status_code := 200; body := Some (VDict [("data", VNone)]) |}
              (VDict [("data", VNone)]) eq_refl eq_refl eq_refl eq_refl
              (or_intror
                 (ex_intro _ [("data", VNone)]
                    (ex_intro _ VNone (conj eq_refl (conj eq_refl eq_refl))))))
    as (obj & _ & Hout & _).
  split; [reflexivity|exact Hout].
Defined.

Lemma startup_fallback_cache_witness :
  default_kb_id _ (snd (startup_event (list outcome) scripted WITH_KEY
                          (initial_world _ [CREATED_EMPTY_ID; listing []]))) =
  VStr "".
Proof.
  refine (startup_fallback_cache (list outcome) scripted WITH_KEY
            (initial_world _ [CREATED_EMPTY_ID; listing []])
            (VDict [("data", VDict [("id", VStr "")])]) (VStr "") []
            eq_refl eq_refl eq_refl eq_refl _ eq_refl).
  exists (VDict [("data", VDict [("list", VList [])])]). split; reflexivity.
Defined.

Lemma list_without_entries_witness :
  respond (fst (create_knowledge_base (list outcome) scripted WITH_KEY
                  DEFAULT_KB
                  (initial_world _ [CREATED_NO_ID; ok_json (VDict [])]))) =
  Error 500 (StrOf NO_ID).
Proof.
  refine (list_without_entries (list outcome) scripted WITH_KEY
            (initial_world _ [CREATED_NO_ID; ok_json (VDict [])])
            DEFAULT_KB [] eq_refl _ eq_refl (or_introl eq_refl)).
  exists (VDict [("data", VDict [])]), VNone. repeat split.
Defined.

Lemma list_field_not_a_list_witness :
  respond (fst (create_knowledge_base (list outcome) scripted WITH_KEY
                  DEFAULT_KB
                  (initial_world _
                     [CREATED_NO_ID;
                      ok_json (VDict [("data", VDict [("list", VNone)])])]))) =
  Error 500 (StrOf (TypeError VNone)).
Proof.
  refine (proj1 (proj1 (list_field_not_a_list (list outcome) scripted WITH_KEY
            (initial_world _
               [CREATED_NO_ID;
                ok_json (VDict [("data", VDict [("list", VNone)])])])
            DEFAULT_KB [("data", VDict [("list", VNone)])]
            [("list", VNone)] VNone eq_refl _ eq_refl eq_refl eq_refl)
            eq_refl)).
  exists (VDict [("data", VDict [])]), VNone. repeat split.
Defined.

(** An identifier that is not a number: the handler returns it, the
    framework cannot render it, and the client gets a bare 500, from
    [create_knowledge_base] and, once it is cached, from
    [get_default_config]. *)
Lemma not_a_number_identifier :
  fst (create_knowledge_base (list outcome) scripted WITH_KEY DEFAULT_KB
         (initial_world _ [CREATED_KB_NAN])) =
    inr (VDict [("knowledge_base_id", VFloat S754_nan)]) /\
  respond (fst (create_knowledge_base (list outcome) scripted WITH_KEY
                  DEFAULT_KB (initial_world _ [CREATED_KB_NAN]))) =
    Unhandled (ValueError (VDict [("knowledge_base_id", VFloat S754_nan)])) /\
  fst (run (list outcome) scripted WITH_KEY [CREATED_KB_NAN]
         [GetDefaultConfig]) =
    [Unhandled
       (ValueError
          (VDict (STATIC_CONFIG ++ [("knowledge_id", VFloat S754_nan)])))].
Proof. repeat split. Qed.
